(** * PyLibPro: the library installation manager (lib-collect.py) and its
      setup script (setup.py), embedded and checked against their
      specification.

    The two Python scripts are embedded shallowly:
    - Python values: [str] as [string] (ASCII text), [int] as [Z], the
      floats of [calculate_size] as the integers they hold (see
      [Py.float_of_str]), [dict] literals as association lists in insertion
      order, [set] as [gset string];
    - exceptions: a result type [Py.result] with the exception raised;
    - console, subprocess and logging effects: a trace of [event]s;
    - the menu loop of [run]: a transition function on the program points
      that block in [input()], driven by the list of lines on stdin. *)

From Stdlib Require Import ZArith List String Ascii Bool Lia DecimalString DecimalN.
From stdpp Require Import base gmap sets list strings.

Local Open Scope string_scope.
Local Open Scope Z_scope.
Local Open Scope list_scope.

(** ** Python primitives used by the two scripts *)

Module Py.

(** Exceptions that the modelled code can raise. *)
Inductive exn : Type :=
| ValueError
| IndexError
| KeyError
| EOFError.

Inductive result (A : Type) : Type :=
| Ok (a : A)
| Raise (e : exn).
Arguments Ok {A} a.
Arguments Raise {A} e.

Definition bind {A B} (r : result A) (k : A -> result B) : result B :=
  match r with
  | Ok a => k a
  | Raise e => Raise e
  end.

Definition of_option {A} (e : exn) (o : option A) : result A :=
  match o with
  | Some a => Ok a
  | None => Raise e
  end.

(** The newline character of the literals written with a backslash-n. *)
Definition nl : string := String (ascii_of_nat 10) EmptyString.

(** [str.lower()], on ASCII text. *)
Definition lower_ascii (c : ascii) : ascii :=
  let n := nat_of_ascii c in
  if ((65 <=? n) && (n <=? 90))%nat then ascii_of_nat (n + 32) else c.

Fixpoint lower (s : string) : string :=
  match s with
  | EmptyString => EmptyString
  | String c s' => String (lower_ascii c) (lower s')
  end.

(** [sub in s] for strings. *)
Fixpoint contains (sub s : string) : bool :=
  String.prefix sub s ||
  match s with
  | EmptyString => false
  | String _ s' => contains sub s'
  end.

(** [s.replace(old, new)] for a non-empty [old] (both call sites pass a
    literal): occurrences are replaced from the left and do not overlap;
    [skip] counts the characters of a matched occurrence still to drop. *)
Fixpoint replace_from (skip : nat) (old new s : string) : string :=
  match s with
  | EmptyString => EmptyString
  | String c s' =>
      match skip with
      | S k => replace_from k old new s'
      | O =>
          if String.prefix old s
          then new +:+ replace_from (String.length old - 1) old new s'
          else String c (replace_from 0 old new s')
      end
  end.

Definition replace (old new s : string) : string := replace_from 0 old new s.

(** [s[n:]] for [0 <= n]. *)
Fixpoint slice_from (n : nat) (s : string) : string :=
  match n, s with
  | O, _ => s
  | S _, EmptyString => EmptyString
  | S k, String _ s' => slice_from k s'
  end.

Definition digit_value (c : ascii) : option Z :=
  let n := nat_of_ascii c in
  if ((48 <=? n) && (n <=? 57))%nat then Some (Z.of_nat (n - 48)) else None.

(** Whitespace that [int()] strips (the ASCII part of [str.isspace]). *)
Definition is_space (c : ascii) : bool :=
  let n := nat_of_ascii c in
  (((9 <=? n) && (n <=? 13)) || ((28 <=? n) && (n <=? 31)) || (n =? 32))%nat.

Fixpoint lstrip (l : list ascii) : list ascii :=
  match l with
  | [] => []
  | c :: l' => if is_space c then lstrip l' else l
  end.

Definition strip (l : list ascii) : list ascii := rev (lstrip (rev (lstrip l))).

(** Digits of a base-10 integer literal: single underscores are allowed
    between two digits. [after_digit] tells whether the previous character
    was a digit. *)
Fixpoint int_digits (acc : Z) (after_digit : bool) (l : list ascii) : option Z :=
  match l with
  | [] => if after_digit then Some acc else None
  | c :: l' =>
      match digit_value c with
      | Some d => int_digits (10 * acc + d) true l'
      | None =>
          if Ascii.eqb c "_" && after_digit then int_digits acc false l' else None
      end
  end.

(** [int(s)] on ASCII text; [None] is [ValueError]. *)
Definition int_of_str (s : string) : option Z :=
  match strip (list_ascii_of_string s) with
  | [] => None
  | c :: l =>
      if Ascii.eqb c "-" then Z.opp <$> int_digits 0 false l
      else if Ascii.eqb c "+" then int_digits 0 false l
      else int_digits 0 false (c :: l)
  end.

(** [float(s)] where [s] is an unsigned decimal integer numeral below
    [2^53]: the double is that integer, exactly. [None] on every other
    string, which covers the strings Python rejects with [ValueError] and
    also forms that this embedding leaves out (signs, blanks, fractions,
    exponents, inf and nan, larger numerals); no size string of the catalog
    is of that kind. *)
Definition float_of_str (s : string) : option Z :=
  match int_digits 0 false (list_ascii_of_string s) with
  | Some n =>
      if forallb (fun c => bool_decide (is_Some (digit_value c))) (list_ascii_of_string s)
         && (n <? 2 ^ 53)
      then Some n else None
  | None => None
  end.

(** Decimal digits of a natural number held in [Z]. *)
Definition digits (n : Z) : string := NilZero.string_of_uint (N.to_uint (Z.to_N n)).

(** Round [n / d] to the nearest integer, ties to even ([0 <= n], [0 < d]). *)
Definition round_half_even (n d : Z) : Z :=
  let q := n / d in
  let r := n mod d in
  if (d <? 2 * r) || ((d =? 2 * r) && Z.odd q) then q + 1 else q.

(** [format(n / d, ".1f")] for the exact quotient of two integers
    ([0 <= n], [0 < d]): one decimal place, correctly rounded. *)
Definition format_1f (n d : Z) : string :=
  let tenths := round_half_even (10 * n) d in
  digits (tenths / 10) +:+ "." +:+ digits (tenths mod 10).

(** [format(x, ".0f")] for a float holding the integer [n >= 0]. *)
Definition format_0f (n : Z) : string := digits n.

(** [l[i]] on a list, with Python's negative indices. *)
Definition index {A} (l : list A) (i : Z) : result A :=
  let n := Z.of_nat (length l) in
  if (0 <=? i) && (i <? n) then of_option IndexError (l !! Z.to_nat i)
  else if (- n <=? i) && (i <? 0) then of_option IndexError (l !! Z.to_nat (i + n))
  else Raise IndexError.

(** [d[k]] and [k in d] on a dict held as an association list. *)
Fixpoint dict_get {V} (d : list (string * V)) (k : string) : result V :=
  match d with
  | [] => Raise KeyError
  | (k', v) :: d' => if String.eqb k' k then Ok v else dict_get d' k
  end.

Definition dict_in {V} (k : string) (d : list (string * V)) : bool :=
  existsb (fun kv => String.eqb (fst kv) k) d.

Definition keys {V} (d : list (string * V)) : list string := map fst d.

End Py.

Notation "'let*' x ':=' r 'in' k" := (Py.bind r (fun x => k))
  (at level 10, x name, r at level 100, k at level 200).

Import Py.

(** ** Effects shared by the two scripts *)

(** The three screens of the presenter. Their text is fixed and nothing
    below depends on it, so each [display_*] call is one event. *)
Inductive screen : Type :=
| MainScreen                             (* display_menu *)
| CategoriesScreen                       (* display_categories *)
| LibrariesScreen (category : string).   (* display_libraries(category) *)

Inductive event : Type :=
| Print (text : string)        (* print(text) *)
| Show (s : screen)            (* the prints of one display_* call *)
| Prompt (text : string)       (* the prompt written by input(text) *)
| CheckCall (package : string) (* subprocess.check_call([sys.executable, "-m", "pip", "install", package]) *)
| LogRecord (levelname message : string).
                               (* a record passed to the handlers that
                                  setup_logging installs: the session log
                                  file and stdout *)

(** How one [subprocess.check_call] ends; the message is [str(e)]. An
    interrupt from the keyboard is not an [Exception] and is left out. *)
Inductive outcome : Type :=
| Returned                              (* exit status 0 *)
| CalledProcessError (message : string) (* non-zero exit status *)
| OtherException (message : string).    (* any other Exception, such as OSError *)

(** The external installer: the outcome of the invocation number [n] of the
    process (counted from 0), for the package it is given. *)
Definition installer : Type := nat -> string -> outcome.

Definition check_calls (trace : list event) : list string :=
  omap (fun e => match e with CheckCall package => Some package | _ => None end) trace.

Definition printed (trace : list event) : list string :=
  omap (fun e => match e with Print text => Some text | _ => None end) trace.

(** The lines that reach the session log file: one per record handled by
    the logging module. *)
Definition log_lines (trace : list event) : list (string * string) :=
  omap (fun e => match e with LogRecord l m => Some (l, m) | _ => None end) trace.

(** ** lib-collect.py *)

Module LibCollect.

(** [self.libraries], in insertion order (lines 51-74). *)
Definition libraries : list (string * list (string * string)) :=
  [ ("1_core_frameworks",
      [ ("tensorflow", "~2GB");
        ("torch", "~4GB");
        ("scikit-learn", "~300MB");
        ("keras", "~100MB");
        ("jax", "~600MB");
        ("xgboost", "~200MB") ]);
    ("2_visualization",
      [ ("matplotlib", "~50MB");
        ("plotly", "~100MB");
        ("seaborn", "~20MB");
        ("bokeh", "~80MB");
        ("altair", "~30MB") ]);
    ("3_nlp",
      [ ("transformers", "~5GB");
        ("spacy", "~1GB");
        ("nltk", "~500MB");
        ("gensim", "~200MB");
        ("sentence-transformers", "~1GB") ]) ].

(** *** calculate_size (lines 201-216) *)

(** Lines 207-211: the megabytes of one size string. *)
Definition size_mb (size : string) : result Z :=
  let size_str := lower size in
  if contains "gb" size_str
  then let* gb := of_option ValueError
                    (float_of_str (replace "gb" "" (replace "~" "" size_str))) in
       Ok (gb * 1024)
  else of_option ValueError (float_of_str (replace "mb" "" (replace "~" "" size_str))).

(** Lines 205-212: the inner loop over the items of one category. *)
Fixpoint category_loop (selected : gset string) (items : list (string * string))
    (total_mb : Z) : result Z :=
  match items with
  | [] => Ok total_mb
  | (lib, size) :: rest =>
      if bool_decide (lib ∈ selected)
      then let* mb := size_mb size in
           category_loop selected rest (total_mb + mb)
      else category_loop selected rest total_mb
  end.

(** Lines 204-212: the outer loop over [self.libraries.values()]. *)
Fixpoint catalog_loop (selected : gset string)
    (categories : list (string * list (string * string))) (total_mb : Z) : result Z :=
  match categories with
  | [] => Ok total_mb
  | (_, items) :: rest =>
      let* total_mb := category_loop selected items total_mb in
      catalog_loop selected rest total_mb
  end.

(** Lines 214-216. [total_mb / 1024] is exact on doubles. *)
Definition render_size (total_mb : Z) : string :=
  if 1024 <? total_mb
  then "~" +:+ format_1f total_mb 1024 +:+ "GB"
  else "~" +:+ format_0f total_mb +:+ "MB".

Definition calculate_size (selected : gset string) : result string :=
  let* total_mb := catalog_loop selected libraries 0 in
  Ok (render_size total_mb).

(** Lines 197-199. *)
Definition calculate_category_size (category : string) : result string :=
  let* items := dict_get libraries category in
  calculate_size (list_to_set (keys items)).

(** The (library, size) items of all categories, in catalog order, the
    library names among them, and these as a set. *)
Definition entries : list (string * string) := concat (map snd libraries).

Definition library_names : list string := keys entries.

Definition catalog_names : gset string := list_to_set library_names.

(** *** install_libraries (lines 218-228) *)

Section Manager.

(** The order in which a [for] loop visits a set: unspecified by
    Python, each member once. *)
Variable set_iter : gset string -> list string.

Variable pip : installer.

(** The body of the loop for each library, [n] invocations having been
    made before. The function holds no call of the logging module. *)
Fixpoint install_loop (n : nat) (libs : list string) : list event :=
  match libs with
  | [] => []
  | lib :: rest =>
      Print (nl +:+ "Installing " +:+ lib +:+ "...")
      :: CheckCall lib
      :: match pip n lib with
         | Returned => Print ("Successfully installed " +:+ lib)
         | CalledProcessError e => Print ("Error installing " +:+ lib +:+ ": " +:+ e)
         | OtherException e =>
             Print ("Unexpected error installing " +:+ lib +:+ ": " +:+ e)
         end
      :: install_loop (S n) rest
  end.

Definition install_libraries (n : nat) (selected : gset string) : list event :=
  install_loop n (set_iter selected).

(** *** display_libraries (lines 151-195): the screen and the value returned *)

Definition display_libraries (category : string)
    : result (list event * list (string * string)) :=
  let* libs := dict_get libraries category in
  Ok ([Show (LibrariesScreen category)], libs).

(** *** run (lines 230-291) *)

(** Which of the two category menus: the one of main-menu choice "2" or
    that of choice "3". *)
Inductive mode : Type :=
| ByCategory
| Individual.

(** The program points of [run] that block in [input()], with the local
    variables live there, and the two ways of leaving [run]. *)
Inductive state : Type :=
| MainMenu                                          (* line 242 *)
| ConfirmAll (all_libs : gset string) (total_size : string)  (* line 254 *)
| CategoryMenu (m : mode)                           (* lines 261 and 274 *)
| ConfirmCategory (category size : string)          (* line 267 *)
| LibraryMenu (category : string)                   (* line 281 *)
| ConfirmLibrary (category lib_name size : string)  (* line 288 *)
| Exit                                              (* the break of line 246 *)
| Raised (e : exn).                                 (* an exception leaves run *)

(** Lines 250-252. *)
Definition all_libraries : gset string :=
  foldl (fun all_libs category => all_libs ∪ list_to_set (keys (snd category)))
        ∅ libraries.

(** Line 264 (and 277). *)
Definition select_category (cat_choice : string) : result string :=
  let* n := of_option ValueError (int_of_str cat_choice) in
  let* key := index (keys libraries) (n - 1) in
  Ok (cat_choice +:+ "_" +:+ slice_from 2 key).

(** The answer to a (y/n) prompt: [input(...).lower() == 'y']. *)
Definition yes (answer : string) : bool := String.eqb (lower answer) "y".

(** What is written between the previous [input()] and the one of the
    state: the screen of the menu, if any, and the prompt. *)
Definition arrive (s : state) : result (list event) :=
  match s with
  | MainMenu =>
      Ok [Show MainScreen; Prompt (nl +:+ "Enter your choice (0-3): ")]
  | ConfirmAll _ total_size =>
      Ok [Prompt (nl +:+ "Install all libraries? Total size: " +:+ total_size
                  +:+ " (y/n): ")]
  | CategoryMenu _ =>
      Ok [Show CategoriesScreen; Prompt (nl +:+ "Select category (0-3): ")]
  | ConfirmCategory category size =>
      Ok [Prompt (nl +:+ "Install " +:+ slice_from 2 category +:+ "? Size: "
                  +:+ size +:+ " (y/n): ")]
  | LibraryMenu category =>
      let* shown := display_libraries category in
      Ok (fst shown ++ [Prompt (nl +:+ "Select library (0 to go back): ")])
  | ConfirmLibrary _ lib_name size =>
      Ok [Prompt (nl +:+ "Install " +:+ lib_name +:+ "? Size: " +:+ size
                  +:+ " (y/n): ")]
  | Exit | Raised _ => Ok []
  end.

(** One line read in state [s], [n] installer invocations having been
    made: the next state, the invocations made by then, and what happened
    in between. *)
Definition step (s : state) (n : nat) (line : string) : state * nat * list event :=
  match s with
  | MainMenu =>
      if String.eqb line "0" then (Exit, n, [Print "Exiting..."])
      else if String.eqb line "1" then
        match calculate_size all_libraries with
        | Ok total_size => (ConfirmAll all_libraries total_size, n, [])
        | Raise e => (Raised e, n, [])
        end
      else if String.eqb line "2" then (CategoryMenu ByCategory, n, [])
      else if String.eqb line "3" then (CategoryMenu Individual, n, [])
      else (MainMenu, n, [])
  | ConfirmAll all_libs _ =>
      if yes line
      then (MainMenu, (n + length (set_iter all_libs))%nat, install_libraries n all_libs)
      else (MainMenu, n, [])
  | CategoryMenu m =>
      if String.eqb line "0" then (MainMenu, n, [])
      else
        match select_category line with
        | Raise e => (Raised e, n, [])
        | Ok category =>
            if dict_in category libraries then
              match m with
              | ByCategory =>
                  match calculate_category_size category with
                  | Ok size => (ConfirmCategory category size, n, [])
                  | Raise e => (Raised e, n, [])
                  end
              | Individual => (LibraryMenu category, n, [])
              end
            else (CategoryMenu m, n, [])
        end
  | ConfirmCategory category _ =>
      if yes line then
        match dict_get libraries category with
        | Ok items =>
            let selected : gset string := list_to_set (keys items) in
            (CategoryMenu ByCategory, (n + length (set_iter selected))%nat,
             install_libraries n selected)
        | Raise e => (Raised e, n, [])
        end
      else (CategoryMenu ByCategory, n, [])
  | LibraryMenu category =>
      match dict_get libraries category with
      | Raise e => (Raised e, n, [])
      | Ok libs =>
          if String.eqb line "0" then (CategoryMenu Individual, n, [])
          else
            match int_of_str line with
            | None => (LibraryMenu category, n, [Print "Invalid input"])
            | Some k =>
                let idx := k - 1 in
                if (0 <=? idx) && (idx <? Z.of_nat (length libs)) then
                  match libs !! Z.to_nat idx with
                  | Some (lib_name, size) =>
                      (ConfirmLibrary category lib_name size, n, [])
                  | None => (Raised IndexError, n, [])
                  end
                else (LibraryMenu category, n, [])
            end
      end
  | ConfirmLibrary category lib_name _ =>
      if yes line
      then (LibraryMenu category, (n + length (set_iter {[lib_name]}))%nat,
            install_libraries n {[lib_name]})
      else (LibraryMenu category, n, [])
  | Exit | Raised _ => (s, n, [])
  end.

(** The loop, from state [s] on the lines left on stdin. [input()] at end
    of input raises [EOFError], which nothing in [run] catches. *)
Fixpoint run_from (s : state) (n : nat) (stdin : list string) : state * list event :=
  match s with
  | Exit | Raised _ => (s, [])
  | _ =>
      match arrive s with
      | Raise e => (Raised e, [])
      | Ok shown =>
          match stdin with
          | [] => (Raised EOFError, shown)
          | line :: rest =>
              let '(s', n', happened) := step s n line in
              let '(final, later) := run_from s' n' rest in
              (final, shown ++ happened ++ later)
          end
      end
  end.

Definition run (stdin : list string) : state * list event :=
  run_from MainMenu 0 stdin.

End Manager.

End LibCollect.

(** ** setup.py *)

Module Setup.

Definition requirements : list string := ["colorama"; "logging"].

(** Lines 16-27: every [Exception] of one attempt is caught and printed. *)
Fixpoint requirements_loop (pip : installer) (n : nat) (packages : list string)
    : list event :=
  match packages with
  | [] => []
  | package :: rest =>
      Print (nl +:+ "Installing " +:+ package +:+ "...")
      :: CheckCall package
      :: match pip n package with
         | Returned => []
         | CalledProcessError e | OtherException e =>
             [Print ("Error installing " +:+ package +:+ ": " +:+ e)]
         end
      ++ requirements_loop pip (S n) rest
  end.

Definition install_requirements (pip : installer) : list event :=
  Print "Setting up PyLibPro..."
  :: requirements_loop pip 0 requirements
  ++ [Print (nl +:+ "Setup complete! Run 'python lib-collect.py' to start")].

End Setup.

(** ** The size calculator as the specification words it *)

Module SizeSpec.

Import LibCollect.

(** A size string without its leading approximation marker. *)
Definition strip_marker (size : string) : string :=
  match size with
  | String "~" rest => rest
  | _ => size
  end.

(** [s] without its final [unit], when it ends with it. *)
Fixpoint strip_unit (unit s : string) : option string :=
  if String.eqb s unit then Some EmptyString
  else match s with
       | EmptyString => None
       | String c s' => String c <$> strip_unit unit s'
       end.

(** The value of a non-empty string of decimal digits. *)
Fixpoint numeral_from (acc : Z) (s : string) : option Z :=
  match s with
  | EmptyString => Some acc
  | String c s' => d ← digit_value c; numeral_from (10 * acc + d) s'
  end.

Definition numeral (s : string) : option Z :=
  match s with
  | EmptyString => None
  | _ => numeral_from 0 s
  end.

(** Megabytes denoted by a size string: gigabytes count 1024 each,
    megabytes are taken directly. *)
Definition megabytes (size : string) : option Z :=
  let body := strip_marker size in
  match strip_unit "GB" body with
  | Some number => Z.mul 1024 <$> numeral number
  | None => strip_unit "MB" body ≫= numeral
  end.

(** A well-formed size literal: the marker, a decimal number, then the
    unit GB or MB. *)
Definition well_formed_size (size : string) : bool :=
  match size with
  | String "~" body =>
      match strip_unit "GB" body, strip_unit "MB" body with
      | Some number, _ | None, Some number => bool_decide (is_Some (numeral number))
      | None, None => false
      end
  | _ => false
  end.

(** The size string that the catalog gives a library. *)
Definition size_of (name : string) : option string :=
  snd <$> find (fun e => String.eqb (fst e) name) entries.

Definition library_megabytes (name : string) : Z :=
  default 0 (size_of name ≫= megabytes).

Definition sum (l : list Z) : Z := foldr Z.add 0 l.


End SizeSpec.

(** ** Vocabulary of the statements about the installer and the loop *)

(** What [install_libraries] prints after the invocation for [lib] has ended
    with outcome [o] (lines 224, 226 and 228). *)
Definition report (lib : string) (o : outcome) : string :=
  match o with
  | Returned => "Successfully installed " +:+ lib
  | CalledProcessError e => "Error installing " +:+ lib +:+ ": " +:+ e
  | OtherException e => "Unexpected error installing " +:+ lib +:+ ": " +:+ e
  end.


(** An installer whose invocations all succeed, and one that fails with a
    non-zero exit status on one package only. *)
Definition pip_succeeds : installer := fun _ _ => Returned.

Definition pip_fails_on (package message : string) : installer :=
  fun _ lib => if String.eqb lib package then CalledProcessError message else Returned.

(** ** The presenter of lib-collect.py: the text of the three screens *)

Module Presenter.

Import LibCollect.

(** [s * n] for a string and a count. *)
Fixpoint repeat_str (s : string) (n : nat) : string :=
  match n with
  | O => EmptyString
  | S k => s +:+ repeat_str s k
  end.

Definition is_cased (c : ascii) : bool :=
  let n := nat_of_ascii c in
  (((65 <=? n) && (n <=? 90)) || ((97 <=? n) && (n <=? 122)))%nat.

Definition upper_ascii (c : ascii) : ascii :=
  let n := nat_of_ascii c in
  if ((97 <=? n) && (n <=? 122))%nat then ascii_of_nat (n - 32) else c.

(** [str.title()], on ASCII text: a letter that follows a letter is put in
    lower case, any other letter in upper case. *)
Fixpoint title_from (after_cased : bool) (s : string) : string :=
  match s with
  | EmptyString => EmptyString
  | String c s' =>
      if is_cased c
      then String (if after_cased then lower_ascii c else upper_ascii c)
                  (title_from true s')
      else String c (title_from false s')
  end.

Definition title (s : string) : string := title_from false s.

(** [d.get(k, default)]. *)
Definition dict_get_or {V} (d : list (string * V)) (k : string) (default : V) : V :=
  match dict_get d k with
  | Ok v => v
  | Raise _ => default
  end.

(** The prints of display_menu (lines 104-123), one string per call. *)
Definition display_menu : list string :=
  [ nl +:+ repeat_str "=" 50;
    "ML Library Installation Manager";
    repeat_str "=" 50;
    "Available Options:";
    nl +:+ "1. Install All Libraries (~15GB total)";
    "   → Complete setup for ML development";
    "   → Includes all frameworks, visualization, and NLP tools";
    "   → Best for full development environments";
    nl +:+ "2. Install by Category";
    "   → Choose specific domains (ML, Visualization, NLP)";
    "   → Optimized for different use cases:";
    "     • ML/AI Development: Core Frameworks";
    "     • Data Analysis: Visualization";
    "     • Text Processing: NLP";
    nl +:+ "3. Install Individual Libraries";
    "   → Pick specific libraries you need";
    "   → Save space by selecting only required tools";
    "   → Custom installation for specific projects";
    nl +:+ "0. Exit";
    repeat_str "=" 50 ].

(** The prints of display_categories (lines 127-149). *)
Definition display_categories : list string :=
  [ nl +:+ "Available Categories:";
    nl +:+ "1. Core Frameworks (~7.2GB)";
    "   → Machine Learning & Deep Learning";
    "   • TensorFlow: Neural Networks, Deep Learning";
    "   • PyTorch: Research, Deep Learning";
    "   • Scikit-learn: Traditional ML, Data Mining";
    "   Best for: AI Development, Model Training";
    nl +:+ "2. Visualization (~280MB)";
    "   → Data Visualization & Analysis";
    "   • Matplotlib: Static Plots";
    "   • Plotly: Interactive Dashboards";
    "   • Seaborn: Statistical Visualization";
    "   Best for: Data Analysis, Reporting";
    nl +:+ "3. NLP (~7.7GB)";
    "   → Natural Language Processing";
    "   • Transformers: Language Models, BERT";
    "   • SpaCy: Text Processing, Named Entities";
    "   • NLTK: Text Analysis, Linguistics";
    "   Best for: Text Analysis, Language Processing";
    nl +:+ "0. Back to main menu" ].

(** The three description tables of display_libraries (lines 160-167,
    173-179 and 185-191). *)
Definition core_descriptions : list (string * string) :=
  [ ("tensorflow", "→ Google's deep learning framework");
    ("torch", "→ Facebook's PyTorch for research & production");
    ("scikit-learn", "→ Traditional ML algorithms & tools");
    ("keras", "→ High-level neural network API");
    ("jax", "→ Automatic differentiation & XLA");
    ("xgboost", "→ Gradient boosting framework") ].

Definition visualization_descriptions : list (string * string) :=
  [ ("matplotlib", "→ Basic plotting library");
    ("plotly", "→ Interactive visualization");
    ("seaborn", "→ Statistical data visualization");
    ("bokeh", "→ Web-based visualization");
    ("altair", "→ Declarative visualization") ].

Definition nlp_descriptions : list (string * string) :=
  [ ("transformers", "→ State-of-the-art NLP models");
    ("spacy", "→ Industrial-strength NLP");
    ("nltk", "→ Natural Language Toolkit");
    ("gensim", "→ Topic modeling & document similarity");
    ("sentence-transformers", "→ Text embeddings & similarity") ].

(** The print of one turn of a listing loop (lines 168, 180 and 192): the
    number, the library, its size and, on a second line, its description. *)
Definition library_line (descriptions : list (string * string)) (i : nat)
    (item : string * string) : string :=
  digits (Z.of_nat i) +:+ ". " +:+ fst item +:+ " (" +:+ snd item +:+ ")" +:+ nl
  +:+ "   " +:+ dict_get_or descriptions (fst item) EmptyString.

(** [for i, (lib, size) in enumerate(libs, i)]. *)
Fixpoint library_lines (descriptions : list (string * string)) (i : nat)
    (libs : list (string * string)) : list string :=
  match libs with
  | [] => []
  | item :: rest =>
      library_line descriptions i item :: library_lines descriptions (S i) rest
  end.

(** display_libraries (lines 151-195) with its text: the prints and the
    list returned. *)
Definition display_libraries (category : string)
    : result (list string * list (string * string)) :=
  let* libs := dict_get libraries category in
  let category_name := title (replace "_" " " (slice_from 2 category)) in
  let listing :=
    if String.prefix "1_" category then
      (nl +:+ "Machine Learning & Deep Learning Libraries:")
      :: library_lines core_descriptions 1 libs
    else if String.prefix "2_" category then
      (nl +:+ "Data Visualization Tools:")
      :: library_lines visualization_descriptions 1 libs
    else if String.prefix "3_" category then
      (nl +:+ "Natural Language Processing Tools:")
      :: library_lines nlp_descriptions 1 libs
    else [] in
  Ok ((nl +:+ "Libraries in " +:+ category_name +:+ ":")
      :: listing ++ [nl +:+ "0. Back to categories"], libs).

(** The text behind a [Show] event. *)
Definition screen_text (s : screen) : result (list string) :=
  match s with
  | MainScreen => Ok display_menu
  | CategoriesScreen => Ok display_categories
  | LibrariesScreen category =>
      let* shown := display_libraries category in
      Ok (fst shown)
  end.

End Presenter.

(** ** Vocabulary of the further statements *)

(** The value of a decimal numeral read from the left, [acc] being the
    value of the digits read before. *)
Fixpoint uint_value (acc : Z) (d : Decimal.uint) : Z :=
  match d with
  | Decimal.Nil => acc
  | Decimal.D0 d' => uint_value (10 * acc + 0) d'
  | Decimal.D1 d' => uint_value (10 * acc + 1) d'
  | Decimal.D2 d' => uint_value (10 * acc + 2) d'
  | Decimal.D3 d' => uint_value (10 * acc + 3) d'
  | Decimal.D4 d' => uint_value (10 * acc + 4) d'
  | Decimal.D5 d' => uint_value (10 * acc + 5) d'
  | Decimal.D6 d' => uint_value (10 * acc + 6) d'
  | Decimal.D7 d' => uint_value (10 * acc + 7) d'
  | Decimal.D8 d' => uint_value (10 * acc + 8) d'
  | Decimal.D9 d' => uint_value (10 * acc + 9) d'
  end.

(** The states of [run] in which every category held is a key of the
    catalog, as the guards of lines 265 and 278 make it, and that is not a
    [KeyError]. *)
Definition guarded (s : LibCollect.state) : Prop :=
  match s with
  | LibCollect.ConfirmCategory category _
  | LibCollect.LibraryMenu category
  | LibCollect.ConfirmLibrary category _ _ => dict_in category LibCollect.libraries = true
  | LibCollect.Raised KeyError => False
  | _ => True
  end.

(** The megabytes that [calculate_size] adds up for a set, before the
    rendering. *)
Definition total_mb (selected : gset string) : result Z :=
  LibCollect.catalog_loop selected LibCollect.libraries 0.

(** ** The parser of size strings on well-formed literals *)

Section ParseFacts.

Import LibCollect SizeSpec.

(** What the string operations of [size_mb] need of a decimal digit. *)
Lemma digit_char c d :
  digit_value c = Some d ->
  lower_ascii c = c /\
  (forall s, String.prefix "~" (String c s) = false) /\
  (forall s, String.prefix "gb" (String c s) = false) /\
  (forall s, String.prefix "mb" (String c s) = false) /\
  (forall s, String.eqb (String c s) "GB" = false) /\
  (forall s, String.eqb (String c s) "MB" = false).
Proof.
  destruct c as [[] [] [] [] [] [] [] []]; intros Hd; vm_compute in Hd;
    try discriminate Hd; repeat split.
Qed.

Lemma strip_unit_unfold unit s :
  strip_unit unit s =
  if String.eqb s unit then Some EmptyString
  else match s with
       | EmptyString => None
       | String c s' => String c <$> strip_unit unit s'
       end.
Proof. by destruct s. Qed.

Lemma strip_unit_Some unit s number :
  strip_unit unit s = Some number -> s = number +:+ unit.
Proof.
  revert number. induction s as [|c s IH]; intros number;
    rewrite strip_unit_unfold;
    match goal with |- context [String.eqb ?s' unit] =>
      destruct (String.eqb_spec s' unit) as [<-|]
    end.
  - by intros [= <-].
  - discriminate.
  - by intros [= <-].
  - destruct (strip_unit unit s) as [number'|]; [|discriminate].
    intros [= <-]. change (String c s = String c (number' +:+ unit)).
    f_equal. by apply IH.
Qed.

Lemma numeral_from_cons acc c s n :
  numeral_from acc (String c s) = Some n ->
  exists d, digit_value c = Some d /\ numeral_from (10 * acc + d) s = Some n.
Proof.
  simpl. destruct (digit_value c) as [d|]; [|discriminate]. eauto.
Qed.

(** [float()] reads a string of digits as [numeral] does. *)
Lemma int_digits_numeral s : forall acc after_digit c n,
  numeral_from acc (String c s) = Some n ->
  int_digits acc after_digit (c :: list_ascii_of_string s) = Some n.
Proof.
  induction s as [|c' s IH]; intros acc after_digit c n Hn;
    apply numeral_from_cons in Hn as (d & Hd & Hn); simpl; rewrite Hd.
  - exact Hn.
  - by apply IH.
Qed.

Lemma all_digits_numeral s : forall acc n,
  numeral_from acc s = Some n ->
  forallb (fun c => bool_decide (is_Some (digit_value c))) (list_ascii_of_string s) = true.
Proof.
  induction s as [|c s IH]; intros acc n Hn; [reflexivity|].
  apply numeral_from_cons in Hn as (d & Hd & Hn). simpl.
  rewrite Hd, (IH _ _ Hn), andb_true_r. apply bool_decide_eq_true. eauto.
Qed.

Lemma float_of_str_numeral number n :
  numeral number = Some n -> n < 2 ^ 53 -> float_of_str number = Some n.
Proof.
  intros Hn Hbound. destruct number as [|c s]; [discriminate|].
  unfold numeral in Hn. unfold float_of_str.
  change (list_ascii_of_string (String c s)) with (c :: list_ascii_of_string s).
  rewrite (int_digits_numeral _ _ _ _ _ Hn).
  change (c :: list_ascii_of_string s) with (list_ascii_of_string (String c s)).
  rewrite (all_digits_numeral _ _ _ Hn).
  by rewrite (proj2 (Z.ltb_lt _ _) Hbound).
Qed.

(** The string operations on digits followed by a lower-case unit. *)
Lemma lower_digits number unit : forall acc n,
  numeral_from acc number = Some n ->
  lower (number +:+ unit) = number +:+ lower unit.
Proof.
  induction number as [|c s IH]; intros acc n Hn; [reflexivity|].
  apply numeral_from_cons in Hn as (d & Hd & Hn).
  change (lower (String c s +:+ unit))
    with (String (lower_ascii c) (lower (s +:+ unit))).
  change (String c s +:+ lower unit) with (String c (s +:+ lower unit)).
  destruct (digit_char _ _ Hd) as (-> & _). f_equal. by eapply IH.
Qed.

Lemma contains_gb_digits number : forall acc n,
  numeral_from acc number = Some n ->
  contains "gb" (number +:+ "gb") = true /\
  contains "gb" (number +:+ "mb") = false.
Proof.
  induction number as [|c s IH]; intros acc n Hn; [by split|].
  apply numeral_from_cons in Hn as (d & Hd & Hn).
  destruct (IH _ _ Hn) as [Hgb Hmb].
  destruct (digit_char _ _ Hd) as (_ & _ & Hpre & _).
  change (String c s +:+ "gb") with (String c (s +:+ "gb")).
  change (String c s +:+ "mb") with (String c (s +:+ "mb")).
  split; cbn [contains]; rewrite Hpre; [exact Hgb|exact Hmb].
Qed.

Lemma replace_marker_digits number unit : forall acc n,
  numeral_from acc number = Some n ->
  replace "~" "" (number +:+ unit) = number +:+ replace "~" "" unit.
Proof.
  unfold replace.
  induction number as [|c s IH]; intros acc n Hn; [reflexivity|].
  apply numeral_from_cons in Hn as (d & Hd & Hn).
  destruct (digit_char _ _ Hd) as (_ & Hpre & _).
  change (String c s +:+ unit) with (String c (s +:+ unit)).
  change (String c s +:+ replace_from 0 "~" "" unit)
    with (String c (s +:+ replace_from 0 "~" "" unit)).
  cbn [replace_from]. rewrite Hpre. f_equal. by eapply IH.
Qed.

Lemma replace_unit_digits number : forall acc n,
  numeral_from acc number = Some n ->
  replace "gb" "" (number +:+ "gb") = number /\
  replace "mb" "" (number +:+ "mb") = number.
Proof.
  unfold replace.
  induction number as [|c s IH]; intros acc n Hn; [by split|].
  apply numeral_from_cons in Hn as (d & Hd & Hn).
  destruct (IH _ _ Hn) as [Hgb Hmb].
  destruct (digit_char _ _ Hd) as (_ & _ & Hpre_gb & Hpre_mb & _).
  change (String c s +:+ "gb") with (String c (s +:+ "gb")).
  change (String c s +:+ "mb") with (String c (s +:+ "mb")).
  split; cbn [replace_from]; [rewrite Hpre_gb|rewrite Hpre_mb]; by f_equal.
Qed.

Lemma replace_marker_head rest :
  replace "~" "" (String "~" rest) = replace "~" "" rest.
Proof. by destruct rest. Qed.

(** On every literal made of the marker, a decimal number below [2^53]
    and the unit GB or MB, the parser of lines 207-211 succeeds and reads the
    megabytes as the specification does. *)
Lemma size_mb_literal number n :
  numeral number = Some n -> n < 2 ^ 53 ->
  size_mb ("~" +:+ number +:+ "GB") = Ok (n * 1024) /\
  size_mb ("~" +:+ number +:+ "MB") = Ok n.
Proof.
  intros Hn Hbound. pose proof (float_of_str_numeral _ _ Hn Hbound) as Hfloat.
  assert (Hfrom : numeral_from 0 number = Some n).
  { destruct number; [discriminate|exact Hn]. }
  destruct (contains_gb_digits _ _ _ Hfrom) as [Hgb Hmb].
  destruct (replace_unit_digits _ _ _ Hfrom) as [Hrgb Hrmb].
  unfold size_mb. split.
  - change (lower ("~" +:+ number +:+ "GB")) with (String "~" (lower (number +:+ "GB"))).
    rewrite (lower_digits _ _ _ _ Hfrom).
    change (lower "GB") with "gb".
    change (contains "gb" (String "~" (number +:+ "gb")))
      with (contains "gb" (number +:+ "gb")).
    rewrite Hgb.
    rewrite replace_marker_head, (replace_marker_digits _ _ _ _ Hfrom).
    change (replace "~" "" "gb") with "gb". by rewrite Hrgb, Hfloat.
  - change (lower ("~" +:+ number +:+ "MB")) with (String "~" (lower (number +:+ "MB"))).
    rewrite (lower_digits _ _ _ _ Hfrom).
    change (lower "MB") with "mb".
    change (contains "gb" (String "~" (number +:+ "mb")))
      with (contains "gb" (number +:+ "mb")).
    rewrite Hmb.
    rewrite replace_marker_head, (replace_marker_digits _ _ _ _ Hfrom).
    change (replace "~" "" "mb") with "mb". by rewrite Hrmb, Hfloat.
Qed.

(** The specification reads the same literals. *)
Lemma strip_unit_digits number : forall acc n,
  numeral_from acc number = Some n ->
  strip_unit "GB" (number +:+ "GB") = Some number /\
  strip_unit "GB" (number +:+ "MB") = None /\
  strip_unit "MB" (number +:+ "MB") = Some number.
Proof.
  induction number as [|c s IH]; intros acc n Hn; [by repeat split|].
  apply numeral_from_cons in Hn as (d & Hd & Hn).
  destruct (IH _ _ Hn) as (Hgg & Hgm & Hmm).
  destruct (digit_char _ _ Hd) as (_ & _ & _ & _ & Hgb & Hmb).
  change (String c s +:+ "GB") with (String c (s +:+ "GB")).
  change (String c s +:+ "MB") with (String c (s +:+ "MB")).
  split; [|split].
  - by rewrite strip_unit_unfold, Hgb, Hgg.
  - by rewrite strip_unit_unfold, Hgb, Hgm.
  - by rewrite strip_unit_unfold, Hmb, Hmm.
Qed.

Lemma megabytes_literal number n :
  numeral number = Some n ->
  megabytes ("~" +:+ number +:+ "GB") = Some (1024 * n) /\
  megabytes ("~" +:+ number +:+ "MB") = Some n.
Proof.
  intros Hn.
  assert (Hfrom : numeral_from 0 number = Some n).
  { destruct number; [discriminate|exact Hn]. }
  destruct (strip_unit_digits _ _ _ Hfrom) as (Hgg & Hgm & Hmm).
  unfold megabytes.
  change (strip_marker ("~" +:+ number +:+ "GB")) with (number +:+ "GB").
  change (strip_marker ("~" +:+ number +:+ "MB")) with (number +:+ "MB").
  rewrite Hgg, Hgm, Hmm. simpl. by rewrite Hn.
Qed.

Lemma well_formed_size_literal size :
  well_formed_size size = true ->
  exists number n, numeral number = Some n /\
    (size = "~" +:+ number +:+ "GB" \/ size = "~" +:+ number +:+ "MB").
Proof.
  destruct size as [|c body]; [discriminate|].
  destruct c as [[] [] [] [] [] [] [] []]; try discriminate.
  unfold well_formed_size.
  destruct (strip_unit "GB" body) as [number|] eqn:Hgb.
  - intros Hnum. apply bool_decide_eq_true in Hnum as [n Hn].
    apply strip_unit_Some in Hgb as ->. exists number, n. by split; [|left].
  - destruct (strip_unit "MB" body) as [number|] eqn:Hmb; [|discriminate].
    intros Hnum. apply bool_decide_eq_true in Hnum as [n Hn].
    apply strip_unit_Some in Hmb as ->. exists number, n. by split; [|right].
Qed.

(** Hence on every well-formed size literal whose number a double holds
    exactly, [size_mb] raises nothing and agrees with the specification. *)
Lemma size_mb_well_formed size :
  well_formed_size size = true ->
  exists number n, numeral number = Some n /\
    (n < 2 ^ 53 -> exists mb, size_mb size = Ok mb /\ megabytes size = Some mb).
Proof.
  intros Hwf. destruct (well_formed_size_literal _ Hwf) as (number & n & Hn & Hsize).
  exists number, n. split; [exact Hn|]. intros Hbound.
  destruct (size_mb_literal _ _ Hn Hbound) as [Hgb Hmb].
  destruct (megabytes_literal _ _ Hn) as [Hsgb Hsmb].
  destruct Hsize as [-> | ->].
  - exists (n * 1024). split; [exact Hgb|]. rewrite Hsgb. f_equal. lia.
  - exists n. by split.
Qed.

End ParseFacts.

(** ** Facts about the size calculator *)

Section SizeFacts.

Import LibCollect SizeSpec.

Implicit Types (selected : gset string) (items : list (string * string)).

Example int_of_str_examples :
  int_of_str "3" = Some 3 /\ int_of_str " 12 " = Some 12 /\
  int_of_str "-1" = Some (-1) /\ int_of_str "+7" = Some 7 /\
  int_of_str "1_000" = Some 1000 /\ int_of_str "007" = Some 7 /\
  int_of_str "" = None /\ int_of_str "abc" = None /\ int_of_str "1.5" = None /\
  int_of_str "_1" = None /\ int_of_str "1__0" = None /\ int_of_str "- 1" = None.
Proof. repeat split. Qed.

Example index_examples :
  index (keys libraries) 0 = Ok "1_core_frameworks" /\
  index (keys libraries) (-1) = Ok "3_nlp" /\
  index (keys libraries) (-3) = Ok "1_core_frameworks" /\
  index (keys libraries) 3 = Raise IndexError /\
  index (keys libraries) (-4) = Raise IndexError.
Proof. repeat split. Qed.

Example size_mb_examples :
  size_mb "~2GB" = Ok 2048 /\ size_mb "~300MB" = Ok 300 /\
  megabytes "~2GB" = Some 2048 /\ megabytes "~300MB" = Some 300.
Proof. repeat split. Qed.

(** The sizes that the specification lists as test cases, and a tie:
    1280 MB is 1.25 GB, which one decimal place rounds to even. *)
Example calculate_size_examples :
  calculate_size ∅ = Ok "~0MB" /\
  calculate_size {["matplotlib"]} = Ok "~50MB" /\
  calculate_category_size "2_visualization" = Ok "~280MB" /\
  calculate_category_size "1_core_frameworks" = Ok "~7.2GB" /\
  calculate_size {["jax"; "nltk"; "keras"; "bokeh"]} = Ok "~1.2GB".
Proof. repeat split; vm_compute; reflexivity. Qed.

Lemma library_names_NoDup : NoDup library_names.
Proof. apply (bool_decide_unpack _). vm_compute. exact I. Qed.

(** Every size string of the catalog parses, to the megabytes that the
    specification reads in it. *)
Lemma catalog_sizes_parse :
  Forall (fun e => size_mb e.2 = Ok (library_megabytes e.1)) entries.
Proof. repeat constructor. Qed.

Lemma category_loop_app selected items1 items2 total_mb :
  category_loop selected (items1 ++ items2) total_mb =
  let* total_mb' := category_loop selected items1 total_mb in
  category_loop selected items2 total_mb'.
Proof.
  revert total_mb. induction items1 as [|[lib size] items1 IH]; intros total_mb.
  - reflexivity.
  - simpl. case_bool_decide; [|apply IH].
    destruct (size_mb size) as [mb|e]; simpl; [apply IH|reflexivity].
Qed.

(** The two nested loops are one loop over all items. *)
Lemma catalog_loop_entries selected categories total_mb :
  catalog_loop selected categories total_mb =
  category_loop selected (concat (map snd categories)) total_mb.
Proof.
  revert total_mb. induction categories as [|[name items] categories IH];
    intros total_mb; simpl.
  - reflexivity.
  - rewrite category_loop_app.
    destruct (category_loop selected items total_mb); simpl; [apply IH|reflexivity].
Qed.

(** On items whose sizes parse, the loop adds the megabytes of the items
    that are selected and raises nothing. *)
Lemma category_loop_total selected items total_mb :
  Forall (fun e => size_mb e.2 = Ok (library_megabytes e.1)) items ->
  category_loop selected items total_mb =
  Ok (total_mb + sum (library_megabytes <$> filter (.∈ selected) (keys items))).
Proof.
  intros Hparse. revert total_mb.
  induction Hparse as [|[lib size] items Hsize _ IH]; intros total_mb; simpl in *.
  - f_equal. lia.
  - rewrite filter_cons. case_bool_decide as Hin.
    + rewrite decide_True by exact Hin. rewrite Hsize. simpl. rewrite IH.
      f_equal. symmetry. apply Z.add_assoc.
    + rewrite decide_False by exact Hin. apply IH.
Qed.


Lemma calculate_size_total selected :
  calculate_size selected =
  Ok (render_size (sum (library_megabytes <$> filter (.∈ selected) library_names))).
Proof.
  unfold calculate_size. rewrite catalog_loop_entries.
  change (concat (map snd libraries)) with entries.
  rewrite (category_loop_total _ _ _ catalog_sizes_parse). reflexivity.
Qed.



(** Every partial sum is a natural number far below [2^53], so every
    double of [calculate_size] holds its integer exactly. *)
Lemma library_megabytes_bounds :
  Forall (fun name => 0 <= library_megabytes name <= 5120) library_names.
Proof. repeat constructor; vm_compute; discriminate. Qed.

Lemma filtered_sum_bounds selected (names : list string) :
  Forall (fun name => 0 <= library_megabytes name <= 5120) names ->
  0 <= sum (library_megabytes <$> filter (.∈ selected) names)
    <= 5120 * Z.of_nat (length names).
Proof.
  induction 1 as [|name names Hname _ IH].
  - simpl. lia.
  - rewrite filter_cons. destruct (decide (name ∈ selected)).
    + rewrite fmap_cons. unfold sum in *. simpl foldr. simpl length. lia.
    + simpl length. lia.
Qed.

Lemma selected_total_bounds selected :
  0 <= sum (library_megabytes <$> filter (.∈ selected) library_names) < 2 ^ 53.
Proof.
  pose proof (filtered_sum_bounds selected _ library_megabytes_bounds) as H.
  change (Z.of_nat (length library_names)) with 16 in H. lia.
Qed.

(** Membership is only ever tested on the names of the items. *)
Lemma category_loop_ext selected selected' items total_mb :
  (forall lib, lib ∈ keys items -> lib ∈ selected <-> lib ∈ selected') ->
  category_loop selected items total_mb = category_loop selected' items total_mb.
Proof.
  revert total_mb. induction items as [|[lib size] items IH]; intros total_mb Hsame.
  - reflexivity.
  - assert (Hrest : forall lib', lib' ∈ keys items -> lib' ∈ selected <-> lib' ∈ selected').
    { intros lib' Hin. apply Hsame. simpl. apply elem_of_cons. by right. }
    assert (Hlib : lib ∈ selected <-> lib ∈ selected').
    { apply Hsame. simpl. apply elem_of_cons. by left. }
    simpl. rewrite (bool_decide_ext _ _ Hlib). case_bool_decide.
    + destruct (size_mb size); simpl; [by apply IH|reflexivity].
    + by apply IH.
Qed.

Lemma calculate_size_ext selected selected' :
  (forall lib, lib ∈ catalog_names -> lib ∈ selected <-> lib ∈ selected') ->
  calculate_size selected = calculate_size selected'.
Proof.
  intros Hsame. unfold calculate_size. rewrite !catalog_loop_entries.
  rewrite (category_loop_ext selected selected'); [reflexivity|].
  intros lib Hin. apply Hsame. unfold catalog_names.
  by apply elem_of_list_to_set.
Qed.



(** C6. With "tensorflow": "~2GB" and "scikit-learn": "~300MB" in the
    catalog, calculate_size of the two names is "~2.3GB", from
    2048 + 300 = 2348 megabytes. *)
Theorem calculate_size_tensorflow_scikit_learn :
  size_of "tensorflow" = Some "~2GB" /\
  size_of "scikit-learn" = Some "~300MB" /\
  catalog_loop {["tensorflow"; "scikit-learn"]} libraries 0 = Ok (2048 + 300) /\
  calculate_size {["tensorflow"; "scikit-learn"]} = Ok "~2.3GB".
Proof. repeat split; vm_compute; reflexivity. Qed.

(** C7. calculate_size of any set of strings is calculate_size of its
    part inside the catalog: a name that the catalog does not know adds
    nothing and changes nothing. *)
Theorem calculate_size_ignores_unknown_names selected :
  calculate_size selected = calculate_size (selected ∩ catalog_names) /\
  (forall name, name ∉ catalog_names ->
     calculate_size (selected ∪ {[name]}) = calculate_size selected).
Proof.
  split.
  - apply calculate_size_ext. intros lib Hin.
    rewrite elem_of_intersection. tauto.
  - intros name Hname. symmetry. apply calculate_size_ext. intros lib Hin.
    rewrite elem_of_union, elem_of_singleton. split; [tauto|].
    intros [Hlib| ->]; [exact Hlib|contradiction].
Qed.

(** C10. calculate_size returns a string for every set of strings: the
    only strings it parses are the size strings of the catalog, all of them
    well-formed literals that parse. *)
Theorem calculate_size_total_function :
  Forall (fun e => well_formed_size e.2 = true) entries /\
  Forall (fun e => exists mb, size_mb e.2 = Ok mb) entries /\
  (forall selected, exists text, calculate_size selected = Ok text).
Proof.
  split; [repeat constructor|]. split.
  - eapply Forall_impl; [apply catalog_sizes_parse|].
    intros e He. exists (library_megabytes e.1). exact He.
  - intros selected. rewrite calculate_size_total. eauto.
Qed.

End SizeFacts.

(** ** Facts about the installer *)

Section InstallerFacts.

Import LibCollect.

Variable set_iter : gset string -> list string.
Variable pip : installer.

(** One invocation per element of the iteration, in its order. *)
Lemma check_calls_install_loop n libs :
  check_calls (install_loop pip n libs) = libs.
Proof.
  revert n. induction libs as [|lib libs IH]; intros n; simpl.
  - reflexivity.
  - destruct (pip n lib); simpl; by rewrite IH.
Qed.

Lemma log_lines_install_loop n libs : log_lines (install_loop pip n libs) = [].
Proof.
  revert n. induction libs as [|lib libs IH]; intros n; simpl.
  - reflexivity.
  - destruct (pip n lib); simpl; apply IH.
Qed.

(** The outcome of every invocation is printed, whatever the outcomes of
    the invocations before it. *)
Lemma install_loop_reports (n : nat) (libs : list string) (i : nat) lib :
  libs !! i = Some lib ->
  report lib (pip (n + i)%nat lib) ∈ printed (install_loop pip n libs).
Proof.
  revert n i. induction libs as [|lib' libs IH]; intros n i Hi.
  - discriminate.
  - destruct i as [|i]; simpl in Hi.
    + injection Hi as ->. rewrite Nat.add_0_r. simpl.
      apply elem_of_cons. right.
      destruct (pip n lib); simpl; apply elem_of_cons; by left.
    + replace (n + S i)%nat with (S n + i)%nat by lia.
      simpl. apply elem_of_cons. right.
      destruct (pip n lib'); simpl; apply elem_of_cons; right;
        apply (IH (S n) i Hi).
Qed.

Section Order.

(** A [for] loop over a set visits each member once. *)
Hypothesis set_iter_members : forall selected, set_iter selected ≡ₚ elements selected.

(** X1. install_libraries invokes the installer exactly once for each
    name of the set and for nothing else, whatever the invocations return. *)
Lemma install_libraries_once_each n selected :
  let calls := check_calls (install_libraries set_iter pip n selected) in
  NoDup calls /\ (forall lib, lib ∈ calls <-> lib ∈ selected) /\
  length calls = size selected.
Proof.
  unfold install_libraries. rewrite check_calls_install_loop.
  pose proof (set_iter_members selected) as Hperm. repeat split.
  - rewrite Hperm. apply NoDup_elements.
  - rewrite Hperm. apply elem_of_elements.
  - rewrite Hperm. apply elem_of_elements.
  - by rewrite Hperm.
Qed.

(** X2. install_libraries prints the outcome of the invocation for every
    name of the set, success or failure with its message: a failure does not
    stop the loop before the names that follow. *)
Lemma install_libraries_reports_each n selected lib :
  lib ∈ selected ->
  exists i, (i < size selected)%nat /\
    report lib (pip (n + i)%nat lib)
      ∈ printed (install_libraries set_iter pip n selected).
Proof.
  intros Hlib. pose proof (set_iter_members selected) as Hperm.
  assert (Hin : lib ∈ set_iter selected) by (rewrite Hperm; by apply elem_of_elements).
  apply list_elem_of_lookup in Hin as [i Hi]. exists i. split.
  - apply lookup_lt_Some in Hi. by rewrite Hperm in Hi.
  - by apply install_loop_reports.
Qed.

End Order.

End InstallerFacts.

(** C2. install_libraries makes one invocation per element of the
    iteration and prints the outcome of each, a failure with its message,
    without stopping; but it passes nothing to the logging module, so no
    failure is logged. Shown for every set and installer, and on three names
    with the invocation for "jax" forced to fail. *)
Theorem install_libraries_failure_not_logged :
  (forall set_iter pip n selected,
     let trace := LibCollect.install_libraries set_iter pip n selected in
     check_calls trace = set_iter selected /\ log_lines trace = []) /\
  (let trace := LibCollect.install_libraries elements
                  (pip_fails_on "jax" "exit status 1") 0 {["keras"; "jax"; "nltk"]} in
   check_calls trace ≡ₚ ["keras"; "jax"; "nltk"] /\
   "Error installing jax: exit status 1" ∈ printed trace /\
   "Successfully installed keras" ∈ printed trace /\
   "Successfully installed nltk" ∈ printed trace /\
   log_lines trace = []).
Proof.
  split.
  - intros set_iter pip n selected. simpl. unfold LibCollect.install_libraries.
    by rewrite check_calls_install_loop, log_lines_install_loop.
  - cbv zeta. split; [|split; [|split; [|split]]];
      [apply (bool_decide_unpack _); vm_compute; exact I ..|reflexivity].
Qed.

(** ** Facts about the menu loop *)

Section LoopFacts.

Import LibCollect.

Variable set_iter : gset string -> list string.
Variable pip : installer.

Lemma log_lines_app (t1 t2 : list event) :
  log_lines (t1 ++ t2) = log_lines t1 ++ log_lines t2.
Proof. apply omap_app. Qed.

Lemma check_calls_app (t1 t2 : list event) :
  check_calls (t1 ++ t2) = check_calls t1 ++ check_calls t2.
Proof. apply omap_app. Qed.

Lemma log_lines_arrive s shown : arrive s = Ok shown -> log_lines shown = [].
Proof.
  destruct s; simpl; try (intros [= <-]; reflexivity).
  unfold display_libraries. destruct (dict_get libraries category); simpl.
  - intros [= <-]. reflexivity.
  - discriminate.
Qed.

Lemma log_lines_step s n line : log_lines (step set_iter pip s n line).2 = [].
Proof.
  unfold step, install_libraries.
  repeat case_match; simpl; try reflexivity; apply log_lines_install_loop.
Qed.

Lemma run_from_cons s n line rest :
  run_from set_iter pip s n (line :: rest) =
  match s with
  | Exit | Raised _ => (s, [])
  | _ =>
      match arrive s with
      | Raise e => (Raised e, [])
      | Ok shown =>
          let '(s', n', happened) := step set_iter pip s n line in
          let '(final, later) := run_from set_iter pip s' n' rest in
          (final, shown ++ happened ++ later)
      end
  end.
Proof. reflexivity. Qed.

(** No run of the loop passes a record to the logging module. *)
Lemma log_lines_run_from stdin :
  forall s n, log_lines (run_from set_iter pip s n stdin).2 = [].
Proof.
  induction stdin as [|line rest IH]; intros s n.
  - destruct s; simpl; try reflexivity;
      try (unfold display_libraries; destruct (dict_get libraries category));
      reflexivity.
  - assert (Hgo : forall shown, arrive s = Ok shown ->
      log_lines (let '(s', n', happened) := step set_iter pip s n line in
                 let '(final, later) := run_from set_iter pip s' n' rest in
                 (final, shown ++ happened ++ later)).2 = []).
    { intros shown Hshown. pose proof (log_lines_step s n line) as Hstep.
      destruct (step set_iter pip s n line) as [[s' n'] happened].
      pose proof (IH s' n') as Hrest.
      destruct (run_from set_iter pip s' n' rest) as [final later].
      simpl in *. rewrite !log_lines_app, Hstep, Hrest.
      by rewrite (log_lines_arrive _ _ Hshown). }
    rewrite run_from_cons.
    destruct s; try reflexivity;
      destruct (arrive _) eqn:Harrive; try reflexivity;
      (apply Hgo; reflexivity).
Qed.

(** Only "1", "2" and "3" name a category; the numbers -2..3 written
    otherwise fail the membership test of line 265 and the menu prompts
    again. *)
Example category_menu_examples :
  select_category "2" = Ok "2_visualization" /\
  select_category "-1" = Ok "-1_visualization" /\
  select_category "01" = Ok "01_core_frameworks" /\
  step set_iter pip (CategoryMenu Individual) 0 "2" = (LibraryMenu "2_visualization", 0%nat, []) /\
  step set_iter pip (CategoryMenu Individual) 0 "-1" = (CategoryMenu Individual, 0%nat, []) /\
  step set_iter pip (CategoryMenu ByCategory) 0 "01" = (CategoryMenu ByCategory, 0%nat, []).
Proof. repeat split. Qed.

(** In either category menu, a line that [int()] rejects raises
    [ValueError] out of [run]: line 264 (277) is not inside a [try]. *)
Lemma category_menu_not_a_number m n line :
  String.eqb line "0" = false ->
  int_of_str line = None ->
  step set_iter pip (CategoryMenu m) n line = (Raised ValueError, n, []).
Proof.
  intros Hzero Hint. unfold step, select_category. by rewrite Hzero, Hint.
Qed.

(** A number outside -2..3 indexes the list of the three category keys
    out of range and raises [IndexError] out of [run]. *)
Lemma category_menu_no_such_index m n line k :
  String.eqb line "0" = false ->
  int_of_str line = Some k ->
  k < -2 \/ 3 < k ->
  step set_iter pip (CategoryMenu m) n line = (Raised IndexError, n, []).
Proof.
  intros Hzero Hint Hrange. unfold step, select_category.
  rewrite Hzero, Hint. cbn [of_option bind].
  unfold index. change (Z.of_nat (length (keys libraries))) with 3.
  destruct (Z.leb_spec 0 (k - 1)), (Z.ltb_spec (k - 1) 3),
    (Z.leb_spec (Z.opp 3) (k - 1)), (Z.ltb_spec (k - 1) 0);
    cbn [andb bind]; try reflexivity; lia.
Qed.

End LoopFacts.

(** C1. In the category menus a number without a category and a line that
    is not a number are not rejected with a new prompt: line 264 (277)
    evaluates [int(cat_choice)] and indexes the key list before the
    membership test and outside any [try], so [IndexError] or [ValueError]
    leaves [run] and ends the loop. Evaluated after main-menu choices "2" and
    "3" on the lines "4" and "abc". *)
Theorem category_menu_bad_number_leaves_run :
  forall set_iter pip,
    (LibCollect.run set_iter pip ["2"; "4"]).1 = LibCollect.Raised IndexError /\
    (LibCollect.run set_iter pip ["2"; "abc"]).1 = LibCollect.Raised ValueError /\
    (LibCollect.run set_iter pip ["3"; "4"]).1 = LibCollect.Raised IndexError /\
    (LibCollect.run set_iter pip ["3"; "abc"]).1 = LibCollect.Raised ValueError.
Proof. intros set_iter pip. repeat split. Qed.

(** C3. No run of the program appends a line to the session log: the
    trace of [run] holds no record for the logging handlers, whatever is
    installed. Shown for every input, and on a session that installs keras. *)
Theorem run_appends_nothing_to_log :
  (forall set_iter pip stdin, log_lines (LibCollect.run set_iter pip stdin).2 = []) /\
  (let result := LibCollect.run elements pip_succeeds
                   ["3"; "1"; "4"; "y"; "0"; "0"; "0"] in
   result.1 = LibCollect.Exit /\
   check_calls result.2 = ["keras"] /\
   "Successfully installed keras" ∈ printed result.2 /\
   log_lines result.2 = []).
Proof.
  split.
  - intros set_iter pip stdin. apply log_lines_run_from.
  - cbv zeta. split; [|split; [|split]];
      [vm_compute; reflexivity ..|
       apply (bool_decide_unpack _); vm_compute; exact I|
       vm_compute; reflexivity].
Qed.




(** C8. "0" at the main menu ends the loop in the Exit state; all that
    happens is the menu, the prompt and "Exiting...", with no installer
    invocation. *)
Theorem main_menu_zero_exits :
  forall set_iter pip n rest,
    LibCollect.run_from set_iter pip LibCollect.MainMenu n ("0" :: rest) =
    (LibCollect.Exit,
     [Show MainScreen; Prompt (nl +:+ "Enter your choice (0-3): "); Print "Exiting..."]) /\
    (LibCollect.run set_iter pip ("0" :: rest)).1 = LibCollect.Exit /\
    check_calls (LibCollect.run set_iter pip ("0" :: rest)).2 = [].
Proof. intros set_iter pip n rest. destruct rest; (split; [|split]); reflexivity. Qed.

(** ** Facts about the setup script *)

Section SetupFacts.

Import Setup.

Variable pip : installer.

(** One invocation per package of the list, in its order. *)
Lemma requirements_loop_check_calls n packages :
  check_calls (requirements_loop pip n packages) = packages.
Proof.
  revert n. induction packages as [|package packages IH]; intros n; simpl.
  - reflexivity.
  - destruct (pip n package); simpl; by rewrite IH.
Qed.

End SetupFacts.

(** C9. The setup script makes exactly two invocations, for colorama and
    then for logging; a failure of either is caught and printed with its
    message, and the invocation for logging follows whatever the first one
    did. *)
Theorem install_requirements_two_attempts :
  forall pip,
    let trace := Setup.install_requirements pip in
    check_calls trace = ["colorama"; "logging"] /\
    (forall e, pip 0%nat "colorama" = CalledProcessError e \/
               pip 0%nat "colorama" = OtherException e ->
       "Error installing colorama: " +:+ e ∈ printed trace) /\
    (forall e, pip 1%nat "logging" = CalledProcessError e \/
               pip 1%nat "logging" = OtherException e ->
       "Error installing logging: " +:+ e ∈ printed trace).
Proof.
  intros pip. cbv zeta. unfold Setup.install_requirements, Setup.requirements.
  simpl. split; [|split].
  - destruct (pip 0%nat "colorama"), (pip 1%nat "logging"); reflexivity.
  - intros e [-> | ->]; simpl; do 2 (apply elem_of_cons; right);
      apply elem_of_cons; by left.
  - intros e [-> | ->]; destruct (pip 0%nat "colorama"); simpl;
      repeat (apply elem_of_cons; first [by left | right]).
Qed.

(** ** Decimal numerals: writing and reading back *)

Section DecimalFacts.

Import SizeSpec.

Lemma numeral_from_uint d : forall acc,
  numeral_from acc (NilEmpty.string_of_uint d) = Some (uint_value acc d).
Proof. induction d; intros acc; simpl; try reflexivity; apply IHd. Qed.

Lemma numeral_uint d :
  numeral (NilZero.string_of_uint d) = Some (uint_value 0 d).
Proof.
  destruct d; try reflexivity; unfold numeral, NilZero.string_of_uint;
    apply (numeral_from_uint _ 0).
Qed.

Lemma uint_value_pos d : forall p,
  uint_value (Z.pos p) d = Z.pos (Pos.of_uint_acc d p).
Proof.
  induction d; intros p; cbn [uint_value Pos.of_uint_acc]; try reflexivity;
    rewrite <- IHd; f_equal; lia.
Qed.

Lemma uint_value_of_uint d : uint_value 0 d = Z.of_N (Pos.of_uint d).
Proof.
  induction d; cbn [uint_value Pos.of_uint Z.of_N]; try reflexivity;
    try (rewrite <- uint_value_pos; f_equal; lia).
  exact IHd.
Qed.

(** Reading the decimal digits of a natural number gives the number back. *)
Lemma numeral_digits n : 0 <= n -> numeral (digits n) = Some n.
Proof.
  intros Hn. unfold digits. rewrite numeral_uint, uint_value_of_uint.
  change (Pos.of_uint (N.to_uint (Z.to_N n))) with (N.of_uint (N.to_uint (Z.to_N n))).
  rewrite DecimalN.Unsigned.of_to. f_equal. lia.
Qed.

Lemma digit_not_blank c d :
  digit_value c = Some d ->
  is_space c = false /\ Ascii.eqb c "-" = false /\ Ascii.eqb c "+" = false.
Proof.
  destruct c as [[] [] [] [] [] [] [] []]; intros Hd; vm_compute in Hd;
    try discriminate Hd; repeat split.
Qed.

Lemma no_blank_numeral s : forall acc n,
  numeral_from acc s = Some n ->
  Forall (fun c => is_space c = false) (list_ascii_of_string s).
Proof.
  induction s as [|c s IH]; intros acc n Hn; [constructor|].
  apply numeral_from_cons in Hn as (d & Hd & Hn). simpl. constructor.
  - by destruct (digit_not_blank _ _ Hd).
  - by eapply IH.
Qed.

Lemma lstrip_no_blank l : Forall (fun c => is_space c = false) l -> lstrip l = l.
Proof. destruct 1 as [|c l Hc _]; simpl; [reflexivity|by rewrite Hc]. Qed.

Lemma strip_no_blank l : Forall (fun c => is_space c = false) l -> strip l = l.
Proof.
  intros Hl. unfold strip. rewrite (lstrip_no_blank _ Hl).
  rewrite lstrip_no_blank; [apply rev_involutive|].
  by apply List.Forall_rev.
Qed.

(** [int()] reads a string of decimal digits as [numeral] does. *)
Lemma int_of_str_numeral s n : numeral s = Some n -> int_of_str s = Some n.
Proof.
  intros Hn. destruct s as [|c s]; [discriminate|]. unfold numeral in Hn.
  unfold int_of_str. rewrite (strip_no_blank _ (no_blank_numeral _ _ _ Hn)).
  change (list_ascii_of_string (String c s)) with (c :: list_ascii_of_string s).
  destruct (numeral_from_cons _ _ _ _ Hn) as (d & Hd & _).
  destruct (digit_not_blank _ _ Hd) as (_ & -> & ->).
  by apply int_digits_numeral.
Qed.

Lemma int_of_str_digits n : 0 <= n -> int_of_str (digits n) = Some n.
Proof. intros Hn. by apply int_of_str_numeral, numeral_digits. Qed.

End DecimalFacts.

(** ** More on the size calculator *)

Section MoreSizeFacts.

Import LibCollect SizeSpec.

Implicit Types (selected : gset string) (names : list string).

(** The megabytes added up for a set: those of the catalog names in it. *)
Lemma total_mb_sum selected :
  total_mb selected =
  Ok (sum (library_megabytes <$> filter (.∈ selected) library_names)).
Proof.
  unfold total_mb. rewrite catalog_loop_entries.
  change (concat (map snd libraries)) with entries.
  by rewrite (category_loop_total _ _ _ catalog_sizes_parse).
Qed.

Lemma calculate_size_render selected t :
  total_mb selected = Ok t -> calculate_size selected = Ok (render_size t).
Proof. unfold calculate_size, total_mb. by intros ->. Qed.

Lemma library_megabytes_positive :
  Forall (fun name => 0 < library_megabytes name) library_names.
Proof. repeat constructor. Qed.

Lemma filtered_sum_union selected1 selected2 names :
  selected1 ## selected2 ->
  sum (library_megabytes <$> filter (.∈ selected1 ∪ selected2) names) =
  sum (library_megabytes <$> filter (.∈ selected1) names)
  + sum (library_megabytes <$> filter (.∈ selected2) names).
Proof.
  intros Hdisj. induction names as [|name names IH]; [reflexivity|].
  rewrite !filter_cons.
  destruct (decide (name ∈ selected1)) as [H1|H1],
    (decide (name ∈ selected2)) as [H2|H2].
  - destruct (Hdisj name H1 H2).
  - rewrite decide_True by (apply elem_of_union; by left).
    rewrite !fmap_cons. unfold sum in *. simpl foldr. lia.
  - rewrite decide_True by (apply elem_of_union; by right).
    rewrite !fmap_cons. unfold sum in *. simpl foldr. lia.
  - rewrite decide_False by (rewrite elem_of_union; tauto). exact IH.
Qed.

Lemma filtered_sum_subseteq selected1 selected2 names :
  selected1 ⊆ selected2 ->
  Forall (fun name => 0 < library_megabytes name) names ->
  sum (library_megabytes <$> filter (.∈ selected1) names)
  <= sum (library_megabytes <$> filter (.∈ selected2) names).
Proof.
  intros Hsub. induction 1 as [|name names Hname _ IH]; [reflexivity|].
  rewrite !filter_cons.
  destruct (decide (name ∈ selected1)) as [H1|H1].
  - rewrite decide_True by (by apply Hsub).
    rewrite !fmap_cons. unfold sum in *. simpl foldr. lia.
  - destruct (decide (name ∈ selected2)); [|exact IH].
    rewrite fmap_cons. unfold sum in *. simpl foldr. lia.
Qed.

Lemma filtered_sum_zero selected names :
  Forall (fun name => 0 < library_megabytes name) names ->
  0 <= sum (library_megabytes <$> filter (.∈ selected) names) /\
  (sum (library_megabytes <$> filter (.∈ selected) names) = 0 <->
   forall name, name ∈ names -> name ∉ selected).
Proof.
  induction 1 as [|name names Hname _ [IHle IH]].
  - split; [reflexivity|]. split; [|reflexivity]. intros _ name Hin.
    by apply elem_of_nil in Hin.
  - rewrite filter_cons. destruct (decide (name ∈ selected)) as [Hin|Hin].
    + rewrite fmap_cons. unfold sum in *. simpl foldr. split; [lia|]. split; [lia|].
      intros Hnone. destruct (Hnone name); [apply elem_of_cons; by left|exact Hin].
    + split; [exact IHle|]. rewrite IH. split.
      * intros Hnone name' [->|Hin']%elem_of_cons; [exact Hin|by apply Hnone].
      * intros Hnone name' Hin'. apply Hnone. apply elem_of_cons. by right.
Qed.

(** X13. The megabytes that calculate_size adds up for the union of two
    disjoint sets are the sum of those of the two sets. *)
Theorem total_mb_disjoint_union selected1 selected2 :
  selected1 ## selected2 ->
  exists mb1 mb2,
    total_mb selected1 = Ok mb1 /\ total_mb selected2 = Ok mb2 /\
    total_mb (selected1 ∪ selected2) = Ok (mb1 + mb2).
Proof.
  intros Hdisj. rewrite !total_mb_sum. do 2 eexists.
  split; [reflexivity|]. split; [reflexivity|].
  by rewrite filtered_sum_union.
Qed.

Lemma total_mb_disjoint_union_witness :
  total_mb {["keras"]} = Ok 100 /\ total_mb {["spacy"; "bokeh"]} = Ok 1104 /\
  total_mb ({["keras"]} ∪ {["spacy"; "bokeh"]}) = Ok 1204.
Proof.
  assert (Hdisj : ({["keras"]} : gset string) ## {["spacy"; "bokeh"]}).
  { apply (bool_decide_unpack _). vm_compute. exact I. }
  destruct (total_mb_disjoint_union _ _ Hdisj) as (mb1 & mb2 & H1 & H2 & H12).
  assert (mb1 = 100) as -> by (vm_compute in H1; congruence).
  assert (mb2 = 1104) as -> by (vm_compute in H2; congruence).
  split; [exact H1|]. split; [exact H2|exact H12].
Defined.

(** X14. A larger set never adds up to fewer megabytes. *)
Theorem total_mb_monotone selected1 selected2 :
  selected1 ⊆ selected2 ->
  exists mb1 mb2,
    total_mb selected1 = Ok mb1 /\ total_mb selected2 = Ok mb2 /\ 0 <= mb1 <= mb2.
Proof.
  intros Hsub. rewrite !total_mb_sum. do 2 eexists.
  split; [reflexivity|]. split; [reflexivity|]. split.
  - apply filtered_sum_zero, library_megabytes_positive.
  - apply filtered_sum_subseteq; [exact Hsub|apply library_megabytes_positive].
Qed.

Lemma total_mb_monotone_witness :
  exists mb1 mb2,
    total_mb {["jax"]} = Ok mb1 /\ total_mb {["jax"; "torch"]} = Ok mb2 /\
    0 <= mb1 <= mb2.
Proof.
  apply (total_mb_monotone {["jax"]} {["jax"; "torch"]}).
  apply (bool_decide_unpack _). vm_compute. exact I.
Defined.

Lemma string_length_append (s t : string) :
  String.length (s +:+ t) = (String.length s + String.length t)%nat.
Proof. induction s as [|c s IH]; simpl; [reflexivity|by rewrite IH]. Qed.

(** Cutting a unit off the end of a string that was made by appending it. *)
Lemma strip_unit_append unit s : strip_unit unit (s +:+ unit) = Some s.
Proof.
  induction s as [|c s IH]; rewrite strip_unit_unfold.
  - change (EmptyString +:+ unit) with unit. by rewrite String.eqb_refl.
  - change (String c s +:+ unit) with (String c (s +:+ unit)).
    destruct (String.eqb_spec (String c (s +:+ unit)) unit) as [Heq|_].
    + apply (f_equal String.length) in Heq. simpl in Heq.
      rewrite string_length_append in Heq. lia.
    + by rewrite IH.
Qed.

(** Only the total 0 is rendered as "~0MB". *)
Lemma render_size_zero t : 0 <= t -> render_size t = "~0MB" -> t = 0.
Proof.
  intros Ht. unfold render_size. destruct (Z.ltb_spec 1024 t) as [Hgb|Hmb].
  - intros Heq.
    change (String "~" (format_1f t 1024 +:+ "GB") = String "~" "0MB") in Heq.
    injection Heq as Heq.
    pose proof (strip_unit_append "GB" (format_1f t 1024)) as Hcut.
    rewrite Heq in Hcut. discriminate Hcut.
  - intros Heq.
    change (String "~" (format_0f t +:+ "MB") = String "~" "0MB") in Heq.
    injection Heq as Heq.
    pose proof (strip_unit_append "MB" (format_0f t)) as Hcut.
    rewrite Heq in Hcut. injection Hcut as Hzero.
    pose proof (numeral_digits t Ht) as Hnum. unfold format_0f in Hzero.
    rewrite <- Hzero in Hnum. by injection Hnum.
Qed.

(** X15. calculate_size returns "~0MB" exactly for the sets that hold no
    library of the catalog: every catalog size is positive. *)
Theorem calculate_size_zero_iff selected :
  calculate_size selected = Ok "~0MB" <-> selected ∩ catalog_names = ∅.
Proof.
  pose proof (filtered_sum_zero selected _ library_megabytes_positive) as [Hle Hzero].
  rewrite (calculate_size_render _ _ (total_mb_sum selected)). split.
  - intros [= Heq]. apply render_size_zero in Heq; [|exact Hle].
    apply set_eq. intros name. rewrite elem_of_intersection. split.
    + intros [Hin Hcat]. unfold catalog_names in Hcat.
      apply elem_of_list_to_set in Hcat. by destruct (proj1 Hzero Heq name Hcat).
    + intros Hin. by apply not_elem_of_empty in Hin.
  - intros Hempty. f_equal.
    replace (sum (library_megabytes <$> filter (.∈ selected) library_names))
      with 0; [reflexivity|].
    symmetry. apply Hzero. intros name Hcat Hin.
    apply (not_elem_of_empty (C:=gset string) name). rewrite <- Hempty.
    apply elem_of_intersection. split; [exact Hin|].
    unfold catalog_names. by apply elem_of_list_to_set.
Qed.

(** X16. When the total is at most 1024 megabytes, the string that
    calculate_size returns is a size string that the parser of lines 207-211
    reads back to that total. *)
Theorem calculate_size_megabytes_read_back selected mb :
  total_mb selected = Ok mb -> mb <= 1024 ->
  exists text, calculate_size selected = Ok text /\ size_mb text = Ok mb.
Proof.
  intros Htotal Hmb. exists (render_size mb).
  split; [by apply calculate_size_render|].
  assert (Hle : 0 <= mb).
  { rewrite total_mb_sum in Htotal. injection Htotal as <-.
    apply filtered_sum_zero, library_megabytes_positive. }
  unfold render_size. rewrite (proj2 (Z.ltb_ge _ _) Hmb).
  apply (size_mb_literal (format_0f mb) mb); [by apply numeral_digits|lia].
Qed.

Lemma calculate_size_megabytes_read_back_witness :
  calculate_size {["matplotlib"; "plotly"; "seaborn"; "bokeh"; "altair"]} = Ok "~280MB" /\
  size_mb "~280MB" = Ok 280.
Proof.
  destruct (calculate_size_megabytes_read_back
              {["matplotlib"; "plotly"; "seaborn"; "bokeh"; "altair"]} 280)
    as (text & Hsize & Hread).
  - vm_compute. reflexivity.
  - lia.
  - assert (text = "~280MB") as -> by (vm_compute in Hsize; congruence).
    by split.
Defined.

Lemma dict_in_get {V} (d : list (string * V)) k :
  (dict_in k d = true -> exists v, dict_get d k = Ok v) /\
  (dict_in k d = false -> dict_get d k = Raise KeyError).
Proof.
  induction d as [|[k' v] d [IHin IHout]]; simpl.
  - split; [discriminate|reflexivity].
  - destruct (String.eqb k' k); simpl; [|by split].
    split; [eauto|discriminate].
Qed.


End MoreSizeFacts.

(** ** More on the menu loop, the installer and the presenter *)

Section MoreLoopFacts.

Import LibCollect.

Variable set_iter : gset string -> list string.
Variable pip : installer.

(** The answers that count as yes. *)
Lemma yes_iff line : yes line = true <-> line = "y" \/ line = "Y".
Proof.
  unfold yes. split.
  - destruct line as [|c [|c' line]]; try discriminate.
    + destruct c as [[] [] [] [] [] [] [] []]; try discriminate; auto.
    + simpl. by destruct (Ascii.eqb (lower_ascii c) "y").
  - by intros [-> | ->].
Qed.

Lemma check_calls_arrive s shown : arrive s = Ok shown -> check_calls shown = [].
Proof.
  destruct s; simpl; try (intros [= <-]; reflexivity).
  unfold LibCollect.display_libraries. destruct (dict_get libraries category); simpl.
  - intros [= <-]. reflexivity.
  - discriminate.
Qed.

(** A line that is not a yes never starts an installation. *)
Lemma step_without_yes s n line :
  yes line = false ->
  (step set_iter pip s n line).1.2 = n /\
  check_calls (step set_iter pip s n line).2 = [].
Proof.
  intros Hno. unfold step. rewrite !Hno. repeat case_match; by split.
Qed.

Lemma run_from_without_yes stdin :
  Forall (fun line => yes line = false) stdin ->
  forall s n, check_calls (run_from set_iter pip s n stdin).2 = [].
Proof.
  induction 1 as [|line rest Hline _ IH]; intros s n.
  - destruct s; simpl; try reflexivity;
      try (unfold LibCollect.display_libraries; destruct (dict_get libraries category));
      reflexivity.
  - rewrite run_from_cons.
    assert (Hgo : forall shown, arrive s = Ok shown ->
      check_calls (let '(s', n', happened) := step set_iter pip s n line in
                   let '(final, later) := run_from set_iter pip s' n' rest in
                   (final, shown ++ happened ++ later)).2 = []).
    { intros shown Hshown. destruct (step_without_yes s n line Hline) as [_ Hstep].
      destruct (step set_iter pip s n line) as [[s' n'] happened].
      pose proof (IH s' n') as Hrest.
      destruct (run_from set_iter pip s' n' rest) as [final later].
      simpl in *. rewrite !check_calls_app, Hstep, Hrest.
      by rewrite (check_calls_arrive _ _ Hshown). }
    destruct s; try reflexivity;
      destruct (arrive _) eqn:Harrive; try reflexivity; (apply Hgo; reflexivity).
Qed.

End MoreLoopFacts.

(** X3. Without a line "y" or "Y" on its input, run never invokes the
    installer: every invocation follows a confirmation. *)
Theorem run_installs_only_on_yes set_iter pip stdin :
  (forall line, line ∈ stdin -> line <> "y" /\ line <> "Y") ->
  check_calls (LibCollect.run set_iter pip stdin).2 = [].
Proof.
  intros Hno. apply run_from_without_yes. apply Forall_forall.
  intros line Hin. destruct (LibCollect.yes line) eqn:Hyes; [|reflexivity].
  apply yes_iff in Hyes. destruct (Hno line Hin). tauto.
Qed.

Lemma run_installs_only_on_yes_witness :
  check_calls (LibCollect.run elements pip_succeeds
                 ["1"; "n"; "2"; "2"; "yes"; "0"; "3"; "1"; "4"; ""; "0"; "0"; "0"]).2 = [].
Proof.
  apply run_installs_only_on_yes. intros line Hin.
  split; intros ->; revert Hin; apply (bool_decide_unpack _); vm_compute; exact I.
Defined.

Section StateFacts.

Import LibCollect.

Variable set_iter : gset string -> list string.
Variable pip : installer.

Lemma step_to_exit s n line :
  (step set_iter pip s n line).1.1 = Exit ->
  s = Exit \/ (s = MainMenu /\ line = "0").
Proof.
  destruct s; unfold step; try (repeat case_match; simpl; discriminate).
  - destruct (String.eqb_spec line "0") as [->|_]; [by right; split|].
    repeat case_match; simpl; discriminate.
  - by left.
Qed.

Lemma run_from_to_exit stdin : forall s n,
  (run_from set_iter pip s n stdin).1 = Exit -> s = Exit \/ "0" ∈ stdin.
Proof.
  induction stdin as [|line rest IH]; intros s n.
  - destruct s; simpl; try discriminate; try (by left).
    unfold LibCollect.display_libraries. by destruct (dict_get libraries category).
  - rewrite run_from_cons.
    assert (Hgo : forall shown,
      (let '(s', n', happened) := step set_iter pip s n line in
       let '(final, later) := run_from set_iter pip s' n' rest in
       (final, shown ++ happened ++ later)).1 = Exit ->
      s = Exit \/ "0" ∈ line :: rest).
    { intros shown. pose proof (step_to_exit s n line) as Hstep.
      destruct (step set_iter pip s n line) as [[s' n'] happened].
      pose proof (IH s' n') as Hrest.
      destruct (run_from set_iter pip s' n' rest) as [final later].
      simpl in *. intros Hfinal. destruct (Hrest Hfinal) as [->|Hin].
      - destruct (Hstep eq_refl) as [->|[-> ->]]; [by left|].
        right. apply elem_of_cons. by left.
      - right. apply elem_of_cons. by right. }
    destruct s; try discriminate; try (by left);
      destruct (arrive _) eqn:Harrive; try discriminate; apply Hgo.
Qed.

(** The guards keep every category held by a state inside the catalog. *)
Lemma select_category_raises line e :
  select_category line = Raise e -> e = ValueError \/ e = IndexError.
Proof.
  unfold select_category. destruct (int_of_str line) as [k|]; cbn [of_option bind].
  - assert (Hindex : forall e', index (keys libraries) (k - 1) = Raise e' ->
              e' = IndexError).
    { unfold index, of_option. intros e'. repeat case_match; congruence. }
    destruct (index (keys libraries) (k - 1)) as [key|e'] eqn:Hkey; cbn [bind].
    + discriminate.
    + intros [= <-]. right. by apply Hindex.
  - intros [= <-]. by left.
Qed.

Lemma calculate_size_returns selected : exists text, calculate_size selected = Ok text.
Proof. rewrite calculate_size_total. eauto. Qed.

Lemma calculate_category_size_returns category :
  dict_in category libraries = true ->
  exists size, calculate_category_size category = Ok size.
Proof.
  intros Hin. destruct (proj1 (dict_in_get libraries category) Hin) as [items Hitems].
  unfold calculate_category_size. rewrite Hitems. apply calculate_size_returns.
Qed.

Lemma step_guarded s n line : guarded s -> guarded (step set_iter pip s n line).1.1.
Proof.
  intros Hs. destruct s; unfold step; unfold guarded in Hs.
  - destruct (calculate_size_returns all_libraries) as [text ->].
    repeat case_match; exact I.
  - by case_match.
  - destruct (String.eqb line "0"); [exact I|].
    destruct (select_category line) as [category|e] eqn:Hsel.
    + destruct (dict_in category libraries) eqn:Hin; [|exact I].
      destruct m; [|exact Hin].
      by destruct (calculate_category_size_returns _ Hin) as [size ->].
    + by destruct (select_category_raises _ _ Hsel) as [-> | ->].
  - destruct (proj1 (dict_in_get libraries category) Hs) as [items ->].
    by case_match.
  - destruct (proj1 (dict_in_get libraries category) Hs) as [libs ->].
    repeat case_match; simpl; try exact I; exact Hs.
  - by case_match.
  - exact I.
  - exact Hs.
Qed.

Lemma arrive_guarded s : guarded s -> exists shown, arrive s = Ok shown.
Proof.
  intros Hs. destruct s; simpl; eauto.
  unfold LibCollect.display_libraries.
  destruct (proj1 (dict_in_get libraries category) Hs) as [libs ->]. simpl. eauto.
Qed.

Lemma run_from_guarded stdin : forall s n,
  guarded s -> (run_from set_iter pip s n stdin).1 <> Raised KeyError.
Proof.
  induction stdin as [|line rest IH]; intros s n Hs.
  - destruct (arrive_guarded s Hs) as [shown Hshown].
    destruct s; simpl; try discriminate; try (intros [= ->]; exact Hs).
    simpl in Hshown. by destruct (LibCollect.display_libraries category).
  - rewrite run_from_cons. destruct (arrive_guarded s Hs) as [shown Hshown].
    pose proof (step_guarded s n line Hs) as Hstep.
    destruct (step set_iter pip s n line) as [[s' n'] happened].
    pose proof (IH s' n' Hstep) as Hrest.
    destruct (run_from set_iter pip s' n' rest) as [final later].
    destruct s; try discriminate; try (intros [= ->]; exact Hs);
      rewrite Hshown; exact Hrest.
Qed.

End StateFacts.

(** X4. run returns normally only through the break of line 246: an input
    without a line "0" never ends the loop in the Exit state. *)
Theorem run_exit_needs_zero set_iter pip stdin :
  (LibCollect.run set_iter pip stdin).1 = LibCollect.Exit -> "0" ∈ stdin.
Proof.
  intros Hexit. by destruct (run_from_to_exit set_iter pip stdin _ _ Hexit).
Qed.

Lemma run_exit_needs_zero_witness :
  (LibCollect.run elements pip_succeeds ["3"; "2"; "0"; "0"; "0"]).1 = LibCollect.Exit /\
  "0" ∈ ["3"; "2"; "0"; "0"; "0"].
Proof.
  split; [reflexivity|].
  apply (run_exit_needs_zero elements pip_succeeds). reflexivity.
Defined.

(** X5. No input makes run end with KeyError: the membership tests of
    lines 265 and 278 come before every lookup of a category in the catalog. *)
Theorem run_never_key_error set_iter pip stdin :
  (LibCollect.run set_iter pip stdin).1 <> LibCollect.Raised KeyError.
Proof. by apply run_from_guarded. Qed.

(** X6. In the states that run reaches, only a line read in a category
    menu can raise: the main menu, the library menu, whose range test of line
    286 comes before [libs[idx]], and the three (y/n) prompts take every line
    without an exception. *)
Theorem only_category_menu_raises set_iter pip s n line e :
  guarded s ->
  (LibCollect.step set_iter pip s n line).1.1 = LibCollect.Raised e ->
  s = LibCollect.Raised e \/
  exists m, s = LibCollect.CategoryMenu m /\ (e = ValueError \/ e = IndexError).
Proof.
  intros Hs. destruct s; unfold LibCollect.step; unfold guarded in Hs.
  - destruct (calculate_size_returns LibCollect.all_libraries) as [text ->].
    repeat case_match; discriminate.
  - case_match; discriminate.
  - destruct (String.eqb line "0"); [discriminate|].
    destruct (LibCollect.select_category line) as [category|e'] eqn:Hsel.
    + destruct (dict_in category LibCollect.libraries) eqn:Hin; [|discriminate].
      destruct m; [|discriminate].
      destruct (calculate_category_size_returns _ Hin) as [size ->]. discriminate.
    + intros [= <-]. right. exists m. split; [reflexivity|].
      by apply select_category_raises in Hsel.
  - destruct (proj1 (dict_in_get LibCollect.libraries category) Hs) as [items ->].
    case_match; discriminate.
  - destruct (proj1 (dict_in_get LibCollect.libraries category) Hs) as [libs ->].
    destruct (String.eqb line "0"); [discriminate|].
    destruct (int_of_str line) as [k|]; [|discriminate].
    destruct (Z.leb_spec 0 (k - 1)), (Z.ltb_spec (k - 1) (Z.of_nat (length libs)));
      cbn [andb]; try discriminate.
    destruct (lookup_lt_is_Some_2 libs (Z.to_nat (k - 1))) as [[lib size] ->];
      [lia|discriminate].
  - case_match; discriminate.
  - discriminate.
  - intros [= <-]. by left.
Qed.

Lemma only_category_menu_raises_witness :
  (LibCollect.step elements pip_succeeds
     (LibCollect.CategoryMenu LibCollect.ByCategory) 0 "7").1.1
  = LibCollect.Raised IndexError /\
  exists m, LibCollect.CategoryMenu LibCollect.ByCategory = LibCollect.CategoryMenu m /\
            (IndexError = ValueError \/ IndexError = IndexError).
Proof.
  destruct (only_category_menu_raises elements pip_succeeds
              (LibCollect.CategoryMenu LibCollect.ByCategory) 0%nat "7" IndexError I eq_refl)
    as [Hraised|Hmenu]; [discriminate Hraised|by split].
Defined.

(** X7. At the main menu every line other than "0", "1", "2" and "3" is
    passed over: nothing is printed or installed, nothing is raised, and the
    menu comes again; no other line does that. *)
Theorem main_menu_other_lines set_iter pip n line :
  LibCollect.step set_iter pip LibCollect.MainMenu n line = (LibCollect.MainMenu, n, [])
  <-> line <> "0" /\ line <> "1" /\ line <> "2" /\ line <> "3".
Proof.
  unfold LibCollect.step.
  destruct (calculate_size_returns LibCollect.all_libraries) as [text ->].
  destruct (String.eqb_spec line "0") as [->|H0]; [split; [discriminate|tauto]|].
  destruct (String.eqb_spec line "1") as [->|H1]; [split; [discriminate|tauto]|].
  destruct (String.eqb_spec line "2") as [->|H2]; [split; [discriminate|tauto]|].
  destruct (String.eqb_spec line "3") as [->|H3]; [split; [discriminate|tauto]|].
  by split.
Qed.

Section SelectionFacts.

Import LibCollect SizeSpec.

Lemma index_elem_of {A} (l : list A) i x : index l i = Ok x -> x ∈ l.
Proof.
  unfold index, of_option. repeat case_match; try discriminate;
    intros [= <-]; by eapply list_elem_of_lookup_2.
Qed.

Lemma dict_in_keys {V} (d : list (string * V)) k : dict_in k d = true -> k ∈ keys d.
Proof.
  induction d as [|[k' v] d IH]; simpl; [discriminate|].
  destruct (String.eqb_spec k' k) as [->|_]; simpl.
  - intros _. apply elem_of_cons. by left.
  - intros Hin. apply elem_of_cons. right. by apply IH.
Qed.

(** X8. The line typed in a category menu selects a category exactly when
    it is "1", "2" or "3", and then the first, second or third category:
    any other spelling of these numbers, such as "01", "+1" or " 1", builds
    a key that the membership test of line 265 (278) turns down. *)
Theorem select_category_selects_iff line category :
  select_category line = Ok category /\ dict_in category libraries = true
  <-> (line = "1" /\ category = "1_core_frameworks") \/
      (line = "2" /\ category = "2_visualization") \/
      (line = "3" /\ category = "3_nlp").
Proof.
  split; [|by intros [[-> ->]|[[-> ->]|[-> ->]]]].
  intros [Hsel Hin]. unfold select_category in Hsel.
  destruct (int_of_str line) as [k|] eqn:Hk; [|discriminate]. cbn [of_option bind] in Hsel.
  destruct (index (keys libraries) (k - 1)) as [key|] eqn:Hkey; [|discriminate].
  cbn [bind] in Hsel. injection Hsel as <-.
  apply index_elem_of in Hkey. apply dict_in_keys in Hin.
  assert (Hcut : forall tail key', line +:+ "_" +:+ tail = key' ->
            strip_unit ("_" +:+ tail) key' = Some line).
  { intros tail key' <-. apply strip_unit_append. }
  change (keys libraries) with ["1_core_frameworks"; "2_visualization"; "3_nlp"] in *.
  repeat (apply elem_of_cons in Hkey as [->|Hkey]);
    try (by apply elem_of_nil in Hkey);
    repeat (apply elem_of_cons in Hin as [Hin|Hin]);
    try (by apply elem_of_nil in Hin);
    apply Hcut in Hin; vm_compute in Hin; try discriminate Hin;
    injection Hin as <-; tauto.
Qed.

End SelectionFacts.

Section ConfirmationFacts.

Import LibCollect.

Variable set_iter : gset string -> list string.
Variable pip : installer.

(** A [for] loop over a set visits each member once. *)
Hypothesis set_iter_members : forall selected, set_iter selected ≡ₚ elements selected.

Lemma dict_get_elem_of {V} (d : list (string * V)) k v :
  dict_get d k = Ok v -> (k, v) ∈ d.
Proof.
  induction d as [|[k' v'] d IH]; simpl; [discriminate|].
  destruct (String.eqb_spec k' k) as [->|_].
  - intros [= ->]. apply elem_of_cons. by left.
  - intros Hget. apply elem_of_cons. right. by apply IH.
Qed.

Lemma category_keys_NoDup category items :
  dict_get libraries category = Ok items -> NoDup (keys items).
Proof.
  intros Hget. apply dict_get_elem_of in Hget.
  repeat (apply elem_of_cons in Hget as [[= -> ->]|Hget]);
    try (by apply elem_of_nil in Hget);
    apply (bool_decide_unpack _); vm_compute; exact I.
Qed.

Lemma set_iter_list_to_set (names : list string) :
  NoDup names -> set_iter (list_to_set names) ≡ₚ names.
Proof.
  intros Hnames. rewrite set_iter_members. by apply elements_list_to_set.
Qed.

(** In the library menu, the decimal writing of a position of the list
    passes the range test of line 286 and selects the library there. *)
Lemma library_menu_selects category libs (i : nat) lib size n :
  dict_get libraries category = Ok libs ->
  libs !! i = Some (lib, size) ->
  step set_iter pip (LibraryMenu category) n (digits (Z.of_nat (S i))) =
  (ConfirmLibrary category lib size, n, []).
Proof.
  intros Hlibs Hi.
  assert (Hk : int_of_str (digits (Z.of_nat (S i))) = Some (Z.of_nat (S i))).
  { apply int_of_str_digits. lia. }
  assert (Hzero : String.eqb (digits (Z.of_nat (S i))) "0" = false).
  { apply String.eqb_neq. intros Heq. rewrite Heq in Hk. vm_compute in Hk.
    injection Hk as Hk. lia. }
  unfold step. rewrite Hlibs, Hzero, Hk.
  pose proof (lookup_lt_Some _ _ _ Hi) as Hlt.
  destruct (Z.leb_spec 0 (Z.of_nat (S i) - 1)); [|lia].
  destruct (Z.ltb_spec (Z.of_nat (S i) - 1) (Z.of_nat (length libs))); [|lia].
  cbn [andb]. replace (Z.to_nat (Z.of_nat (S i) - 1)) with i by lia.
  by rewrite Hi.
Qed.

(** X9. The number that display_libraries prints beside a library is the
    line that selects it: typed at the library menu, it leads to the (y/n)
    prompt for that library and its size, with nothing installed yet. *)
Theorem library_number_selects category libs (i : nat) lib size n :
  dict_get libraries category = Ok libs ->
  libs !! i = Some (lib, size) ->
  (exists text description,
     Presenter.display_libraries category = Ok (text, libs) /\
     digits (Z.of_nat (S i)) +:+ ". " +:+ lib +:+ " (" +:+ size +:+ ")" +:+ nl
       +:+ "   " +:+ description ∈ text) /\
  step set_iter pip (LibraryMenu category) n (digits (Z.of_nat (S i))) =
  (ConfirmLibrary category lib size, n, []).
Proof.
  intros Hlibs Hi. split.
  - assert (Hline : forall descriptions start,
      Presenter.library_line descriptions (start + i) (lib, size)
        ∈ Presenter.library_lines descriptions start libs).
    { clear Hlibs. revert i Hi. induction libs as [|item rest IH]; intros i Hi descriptions start.
      - discriminate.
      - destruct i as [|i]; simpl in Hi.
        + injection Hi as ->. rewrite Nat.add_0_r. apply elem_of_cons. by left.
        + replace (start + S i)%nat with (S start + i)%nat by lia.
          apply elem_of_cons. right. by apply IH. }
    unfold Presenter.display_libraries. rewrite Hlibs. cbn [bind].
    apply dict_get_elem_of in Hlibs.
    repeat (apply elem_of_cons in Hlibs as [[= -> ->]|Hlibs]);
      try (by apply elem_of_nil in Hlibs);
      eexists _, _; (split; [reflexivity|]);
      apply elem_of_cons; right; apply elem_of_cons; right;
      apply elem_of_app; left; apply (Hline _ 1%nat).
  - exact (library_menu_selects _ _ _ _ _ _ Hlibs Hi).
Qed.

Lemma set_iter_singleton (lib : string) : set_iter {[lib]} = [lib].
Proof.
  apply Permutation_singleton_r. rewrite set_iter_members. by rewrite elements_singleton.
Qed.

(** X10. A yes at the prompt for one library invokes the installer once,
    for that library, prints its outcome and comes back to the library menu
    of the same category; any other answer comes back with nothing done. *)
Theorem confirm_library_installs_one category lib size n answer :
  (yes answer = true ->
     exists trace,
       step set_iter pip (ConfirmLibrary category lib size) n answer =
       (LibraryMenu category, S n, trace) /\
       check_calls trace = [lib] /\
       printed trace = [nl +:+ "Installing " +:+ lib +:+ "..."; report lib (pip n lib)]) /\
  (yes answer = false ->
     step set_iter pip (ConfirmLibrary category lib size) n answer =
     (LibraryMenu category, n, [])).
Proof.
  unfold step. split; intros ->; [|reflexivity].
  pose proof (set_iter_singleton lib) as Hone.
  unfold install_libraries. rewrite Hone. eexists. split; [|split].
  - simpl. repeat f_equal. lia.
  - simpl. by destruct (pip n lib).
  - simpl. by destruct (pip n lib).
Qed.

(** X11. Main-menu choice "1" leads to a prompt with the size of the whole
    catalog, and a yes there invokes the installer once for each of the
    sixteen libraries of the catalog before the main menu comes again. *)
Theorem confirm_all_installs_catalog n answer :
  yes answer = true ->
  exists total_size trace,
    step set_iter pip MainMenu n "1" = (ConfirmAll all_libraries total_size, n, []) /\
    calculate_size catalog_names = Ok total_size /\
    step set_iter pip (ConfirmAll all_libraries total_size) n answer =
    (MainMenu, (n + 16)%nat, trace) /\
    check_calls trace ≡ₚ library_names.
Proof.
  intros Hyes.
  assert (Hall : all_libraries = catalog_names).
  { apply (bool_decide_unpack _). vm_compute. exact I. }
  assert (Hiter : set_iter all_libraries ≡ₚ library_names).
  { rewrite Hall. apply set_iter_list_to_set, library_names_NoDup. }
  destruct (calculate_size_returns all_libraries) as [total_size Hsize].
  exists total_size, (install_libraries set_iter pip n all_libraries).
  unfold step. rewrite Hsize, Hyes. cbn [String.eqb Ascii.eqb Bool.eqb].
  split; [reflexivity|]. split; [by rewrite <- Hall|]. split.
  - by rewrite (Permutation_length Hiter).
  - unfold install_libraries. by rewrite check_calls_install_loop.
Qed.

(** X12. A yes at the prompt for a category invokes the installer once for
    each library of that category and for no other, and the category menu
    comes again. *)
Theorem confirm_category_installs_category category items size n answer :
  dict_get libraries category = Ok items ->
  yes answer = true ->
  exists trace,
    step set_iter pip (ConfirmCategory category size) n answer =
    (CategoryMenu ByCategory, (n + length items)%nat, trace) /\
    check_calls trace ≡ₚ keys items.
Proof.
  intros Hitems Hyes.
  pose proof (set_iter_list_to_set _ (category_keys_NoDup _ _ Hitems)) as Hiter.
  unfold step. rewrite Hyes, Hitems. eexists. split.
  - rewrite (Permutation_length Hiter). unfold keys. by rewrite length_map.
  - unfold install_libraries. by rewrite check_calls_install_loop.
Qed.

End ConfirmationFacts.

Lemma library_number_selects_witness :
  LibCollect.step elements pip_succeeds (LibCollect.LibraryMenu "2_visualization") 0 "3" =
  (LibCollect.ConfirmLibrary "2_visualization" "seaborn" "~20MB", 0%nat, []).
Proof.
  exact (proj2 (library_number_selects elements pip_succeeds "2_visualization" _ 2
                  "seaborn" "~20MB" 0%nat eq_refl eq_refl)).
Defined.

Lemma confirm_library_installs_one_witness :
  exists trace,
    LibCollect.step elements (pip_fails_on "seaborn" "exit status 1")
      (LibCollect.ConfirmLibrary "2_visualization" "seaborn" "~20MB") 4 "Y" =
    (LibCollect.LibraryMenu "2_visualization", 5%nat, trace) /\
    check_calls trace = ["seaborn"] /\
    printed trace = [nl +:+ "Installing seaborn..."; "Error installing seaborn: exit status 1"].
Proof.
  refine (proj1 (confirm_library_installs_one elements (pip_fails_on "seaborn" "exit status 1")
                   _ "2_visualization" "seaborn" "~20MB" 4%nat "Y") eq_refl).
  intros selected. reflexivity.
Defined.

Lemma confirm_all_installs_catalog_witness :
  exists total_size trace,
    LibCollect.step elements pip_succeeds LibCollect.MainMenu 0 "1" =
    (LibCollect.ConfirmAll LibCollect.all_libraries total_size, 0%nat, []) /\
    LibCollect.calculate_size LibCollect.catalog_names = Ok total_size /\
    LibCollect.step elements pip_succeeds
      (LibCollect.ConfirmAll LibCollect.all_libraries total_size) 0 "y" =
    (LibCollect.MainMenu, 16%nat, trace) /\
    check_calls trace ≡ₚ LibCollect.library_names.
Proof.
  refine (confirm_all_installs_catalog elements pip_succeeds _ 0%nat "y" eq_refl).
  intros selected. reflexivity.
Defined.

Lemma confirm_category_installs_category_witness :
  exists trace,
    LibCollect.step elements pip_succeeds
      (LibCollect.ConfirmCategory "3_nlp" "~7.7GB") 0 "y" =
    (LibCollect.CategoryMenu LibCollect.ByCategory, 5%nat, trace) /\
    check_calls trace ≡ₚ ["transformers"; "spacy"; "nltk"; "gensim"; "sentence-transformers"].
Proof.
  refine (confirm_category_installs_category elements pip_succeeds _ "3_nlp" _ "~7.7GB"
            0%nat "y" eq_refl eq_refl).
  intros selected. reflexivity.
Defined.

Lemma install_libraries_once_each_witness :
  let calls := check_calls (LibCollect.install_libraries elements
                 (pip_fails_on "jax" "exit status 1") 0 {["keras"; "jax"; "nltk"]}) in
  NoDup calls /\ (forall lib, lib ∈ calls <-> lib ∈ ({["keras"; "jax"; "nltk"]} : gset string)) /\
  length calls = size ({["keras"; "jax"; "nltk"]} : gset string).
Proof.
  refine (install_libraries_once_each elements (pip_fails_on "jax" "exit status 1") _
            0%nat {["keras"; "jax"; "nltk"]}).
  intros selected. reflexivity.
Defined.

Lemma install_libraries_reports_each_witness :
  exists i, (i < size ({["keras"; "jax"; "nltk"]} : gset string))%nat /\
    report "nltk" (pip_fails_on "jax" "exit status 1" (0 + i)%nat "nltk")
      ∈ printed (LibCollect.install_libraries elements
                   (pip_fails_on "jax" "exit status 1") 0 {["keras"; "jax"; "nltk"]}).
Proof.
  refine (install_libraries_reports_each elements (pip_fails_on "jax" "exit status 1") _
            0%nat {["keras"; "jax"; "nltk"]} "nltk" _).
  - intros selected. reflexivity.
  - apply (bool_decide_unpack _). vm_compute. exact I.
Defined.

Section PresenterFacts.

Import LibCollect.

(** X18. The size printed beside each category by display_categories is
    the size that calculate_category_size computes for that category and that
    the (y/n) prompt of line 267 shows. *)
Theorem display_categories_sizes (i : nat) category items :
  libraries !! i = Some (category, items) ->
  exists name size,
    calculate_category_size category = Ok size /\
    nl +:+ digits (Z.of_nat (S i)) +:+ ". " +:+ name +:+ " (" +:+ size +:+ ")"
      ∈ Presenter.display_categories.
Proof.
  intros Hi.
  destruct i as [|[|[|i]]]; [| | |discriminate Hi]; injection Hi as <- <-.
  - exists "Core Frameworks", "~7.2GB". split; [vm_compute; reflexivity|].
    apply (bool_decide_unpack _). vm_compute. exact I.
  - exists "Visualization", "~280MB". split; [vm_compute; reflexivity|].
    apply (bool_decide_unpack _). vm_compute. exact I.
  - exists "NLP", "~7.7GB". split; [vm_compute; reflexivity|].
    apply (bool_decide_unpack _). vm_compute. exact I.
Qed.

Lemma display_categories_sizes_witness :
  exists name size,
    calculate_category_size "2_visualization" = Ok size /\
    nl +:+ "2. " +:+ name +:+ " (" +:+ size +:+ ")" ∈ Presenter.display_categories.
Proof. exact (display_categories_sizes 1 "2_visualization" _ eq_refl). Defined.

(** X19. For every category of the catalog, display_libraries prints one
    entry per library, in catalog order after the two header lines, and every
    entry carries a description from the table of its category: no library
    falls back to the empty default of [dict.get]. *)
Theorem display_libraries_lists_all category libs :
  dict_get libraries category = Ok libs ->
  exists text,
    Presenter.display_libraries category = Ok (text, libs) /\
    length text = (length libs + 3)%nat /\
    forall (i : nat) lib size, libs !! i = Some (lib, size) ->
      exists description,
        description <> EmptyString /\
        text !! (i + 2)%nat =
        Some (digits (Z.of_nat (S i)) +:+ ". " +:+ lib +:+ " (" +:+ size +:+ ")" +:+ nl
              +:+ "   " +:+ description).
Proof.
  intros Hlibs. unfold Presenter.display_libraries. rewrite Hlibs. cbn [bind].
  apply dict_get_elem_of in Hlibs.
  repeat (apply elem_of_cons in Hlibs as [[= -> ->]|Hlibs]);
    try (by apply elem_of_nil in Hlibs);
    (eexists; split; [reflexivity|]; split; [reflexivity|]);
    intros i lib size Hi;
    do 6 (destruct i as [|i];
          [first [discriminate Hi
                 |injection Hi as <- <-; eexists; split; [|reflexivity]; discriminate]|]);
    discriminate Hi.
Qed.

Lemma display_libraries_lists_all_witness :
  exists text,
    Presenter.display_libraries "3_nlp" =
    Ok (text, [("transformers", "~5GB"); ("spacy", "~1GB"); ("nltk", "~500MB");
               ("gensim", "~200MB"); ("sentence-transformers", "~1GB")]) /\
    length text = 8%nat /\
    forall (i : nat) lib size,
      [("transformers", "~5GB"); ("spacy", "~1GB"); ("nltk", "~500MB");
       ("gensim", "~200MB"); ("sentence-transformers", "~1GB")] !! i = Some (lib, size) ->
      exists description,
        description <> EmptyString /\
        text !! (i + 2)%nat =
        Some (digits (Z.of_nat (S i)) +:+ ". " +:+ lib +:+ " (" +:+ size +:+ ")" +:+ nl
              +:+ "   " +:+ description).
Proof. exact (display_libraries_lists_all "3_nlp" _ eq_refl). Defined.

End PresenterFacts.

(** ** Whole sessions of the menu loop *)

Section SessionFacts.

Import LibCollect.

Variable set_iter : gset string -> list string.
Variable pip : installer.

Hypothesis set_iter_members : forall selected, set_iter selected ≡ₚ elements selected.

(** One turn of the loop: where it ends and what it invokes. *)
Lemma run_from_turn s n line rest s' n' happened :
  guarded s -> s <> Exit -> (forall e, s <> Raised e) ->
  step set_iter pip s n line = (s', n', happened) ->
  (run_from set_iter pip s n (line :: rest)).1 = (run_from set_iter pip s' n' rest).1 /\
  check_calls (run_from set_iter pip s n (line :: rest)).2 =
  check_calls happened ++ check_calls (run_from set_iter pip s' n' rest).2.
Proof.
  intros Hs Hexit Hraised Hstep. rewrite run_from_cons, Hstep.
  destruct (arrive_guarded s Hs) as [shown Hshown]. rewrite Hshown.
  pose proof (check_calls_arrive _ _ Hshown) as Hnone.
  destruct (run_from set_iter pip s' n' rest) as [final later].
  destruct s; try (by destruct Hexit); try (by destruct (Hraised e));
    simpl; by rewrite !check_calls_app, Hnone.
Qed.

Ltac take_turn s Hguard Hstep :=
  match type of Hstep with
  | step _ _ s _ _ = _ =>
      match goal with
      | |- context [run_from _ _ s _ (_ :: ?rest)] =>
          destruct (run_from_turn s _ _ rest _ _ _ Hguard
                      ltac:(discriminate) ltac:(discriminate) Hstep) as [-> ->]
      end
  end.

Lemma category_menu_selects (j : nat) category libs :
  libraries !! j = Some (category, libs) ->
  select_category (digits (Z.of_nat (S j))) = Ok category /\
  dict_in category libraries = true /\
  String.eqb (digits (Z.of_nat (S j))) "0" = false.
Proof.
  intros Hj. destruct j as [|[|[|j]]]; [| | |discriminate Hj];
    injection Hj as <- <-; by repeat split.
Qed.

(** X20. The whole path of main-menu choice "3": the number of a category,
    the number of one of its libraries, a yes, and three times "0" to leave;
    run ends normally and the installer has been invoked once, for that
    library. *)
Theorem individual_install_session (j i : nat) category libs lib size :
  libraries !! j = Some (category, libs) ->
  libs !! i = Some (lib, size) ->
  let result := run set_iter pip
    ["3"; digits (Z.of_nat (S j)); digits (Z.of_nat (S i)); "y"; "0"; "0"; "0"] in
  result.1 = Exit /\ check_calls result.2 = [lib].
Proof.
  intros Hj Hi.
  destruct (category_menu_selects j category libs Hj)
    as (Hsel & Hin & Hzero).
  assert (Hlibs : dict_get libraries category = Ok libs).
  { destruct j as [|[|[|j]]]; [| | |discriminate Hj]; by injection Hj as <- <-. }
  assert (H1 : step set_iter pip MainMenu 0 "3" = (CategoryMenu Individual, 0%nat, []))
    by reflexivity.
  assert (H2 : step set_iter pip (CategoryMenu Individual) 0 (digits (Z.of_nat (S j)))
               = (LibraryMenu category, 0%nat, [])).
  { unfold step. by rewrite Hzero, Hsel, Hin. }
  pose proof (library_menu_selects set_iter pip category libs i lib size 0%nat Hlibs Hi) as H3.
  assert (H4 : step set_iter pip (ConfirmLibrary category lib size) 0 "y"
               = (LibraryMenu category, 1%nat, install_libraries set_iter pip 0 {[lib]})).
  { unfold step. cbn [yes lower lower_ascii String.eqb]. simpl.
    by rewrite (set_iter_singleton set_iter set_iter_members). }
  assert (H5 : step set_iter pip (LibraryMenu category) 1 "0"
               = (CategoryMenu Individual, 1%nat, [])).
  { unfold step. by rewrite Hlibs. }
  assert (H6 : step set_iter pip (CategoryMenu Individual) 1 "0" = (MainMenu, 1%nat, []))
    by reflexivity.
  assert (H7 : step set_iter pip MainMenu 1 "0" = (Exit, 1%nat, [Print "Exiting..."]))
    by reflexivity.
  cbv zeta. unfold run.
  take_turn MainMenu I H1. take_turn (CategoryMenu Individual) I H2.
  take_turn (LibraryMenu category) Hin H3.
  take_turn (ConfirmLibrary category lib size) Hin H4.
  take_turn (LibraryMenu category) Hin H5.
  take_turn (CategoryMenu Individual) I H6. take_turn MainMenu I H7.
  split; [reflexivity|].
  unfold install_libraries. rewrite check_calls_install_loop.
  by rewrite (set_iter_singleton set_iter set_iter_members).
Qed.

(** X21. The whole path of main-menu choice "2": the number of a category,
    a yes, and twice "0" to leave; run ends normally and the installer has
    been invoked once for each library of that category and for no other. *)
Theorem category_install_session (j : nat) category libs :
  libraries !! j = Some (category, libs) ->
  let result := run set_iter pip ["2"; digits (Z.of_nat (S j)); "y"; "0"; "0"] in
  result.1 = Exit /\ check_calls result.2 ≡ₚ keys libs.
Proof.
  intros Hj.
  destruct (category_menu_selects j category libs Hj) as (Hsel & Hin & Hzero).
  assert (Hlibs : dict_get libraries category = Ok libs).
  { destruct j as [|[|[|j]]]; [| | |discriminate Hj]; by injection Hj as <- <-. }
  destruct (calculate_category_size_returns _ Hin) as [size Hsize].
  assert (H1 : step set_iter pip MainMenu 0 "2" = (CategoryMenu ByCategory, 0%nat, []))
    by reflexivity.
  assert (H2 : step set_iter pip (CategoryMenu ByCategory) 0 (digits (Z.of_nat (S j)))
               = (ConfirmCategory category size, 0%nat, [])).
  { unfold step. by rewrite Hzero, Hsel, Hin, Hsize. }
  assert (H3 : step set_iter pip (ConfirmCategory category size) 0 "y"
               = (CategoryMenu ByCategory,
                  (0 + length (set_iter (list_to_set (keys libs))))%nat,
                  install_libraries set_iter pip 0 (list_to_set (keys libs)))).
  { unfold step. by rewrite Hlibs. }
  set (n' := (0 + length (set_iter (list_to_set (keys libs))))%nat) in H3.
  assert (H4 : step set_iter pip (CategoryMenu ByCategory) n' "0" = (MainMenu, n', []))
    by reflexivity.
  assert (H5 : step set_iter pip MainMenu n' "0" = (Exit, n', [Print "Exiting..."]))
    by reflexivity.
  cbv zeta. unfold run.
  take_turn MainMenu I H1. take_turn (CategoryMenu ByCategory) I H2.
  take_turn (ConfirmCategory category size) Hin H3.
  take_turn (CategoryMenu ByCategory) I H4. take_turn MainMenu I H5.
  split; [reflexivity|].
  unfold install_libraries. rewrite check_calls_install_loop. simpl.
  rewrite !app_nil_r.
  apply (set_iter_list_to_set set_iter set_iter_members).
  by apply (category_keys_NoDup category).
Qed.

End SessionFacts.

Lemma individual_install_session_witness :
  let result := LibCollect.run elements pip_succeeds ["3"; "1"; "4"; "y"; "0"; "0"; "0"] in
  result.1 = LibCollect.Exit /\ check_calls result.2 = ["keras"].
Proof.
  refine (individual_install_session elements pip_succeeds _ 0 3 "1_core_frameworks" _
            "keras" "~100MB" eq_refl eq_refl).
  intros selected. reflexivity.
Defined.

Lemma category_install_session_witness :
  let result := LibCollect.run elements (pip_fails_on "plotly" "exit status 1")
                  ["2"; "2"; "y"; "0"; "0"] in
  result.1 = LibCollect.Exit /\
  check_calls result.2 ≡ₚ ["matplotlib"; "plotly"; "seaborn"; "bokeh"; "altair"].
Proof.
  refine (category_install_session elements (pip_fails_on "plotly" "exit status 1") _
            1 "2_visualization" _ eq_refl).
  intros selected. reflexivity.
Defined.

(** ** The screens behind the events of the loop *)

(** The list that the loop takes from display_libraries is the one
    returned beside the text of the screen, and the call fails on the same
    categories. *)
Lemma display_libraries_same_list category :
  LibCollect.display_libraries category =
  let* shown := Presenter.display_libraries category in
  Ok ([Show (LibrariesScreen category)], snd shown).
Proof.
  unfold LibCollect.display_libraries, Presenter.display_libraries.
  by destruct (dict_get LibCollect.libraries category).
Qed.
